(** * microburbs: the suburb analyzer of [app.py]

    A shallow embedding of [analyze_property_data] and of the
    [/api/analyze] handler [analyze_suburb], followed by the properties
    the specification states about them.

    Conventions of the embedding.
    - A parsed JSON document is a value of [json]; a Python [dict] is an
      association list in insertion order, looked up by its first match.
    - An exception is a value of [exn]; code that may raise returns
      [result A], and [try]/[except] is a match on that result.
    - Python [int] is [Z].  Python [float] is idealised as an exact
      rational ([Q], kept in lowest terms): binary64 representation error,
      infinities and NaN are not modelled.  [round] follows the documented
      round-half-to-even rule on the exact value.  For integer inputs
      whose sum stays below 2^51 the idealisation agrees with binary64,
      except where [round(x, 1)] meets a decimal tie that binary64 cannot
      represent (43/20 is stored just below 2.15 and rounds to 2.1); the
      statements about rounding below say "nearest" and hold for either
      direction of such a tie.  Beyond that range Python rounds to
      binary64 (2^53 + 1 becomes 2^53) and raises [OverflowError] where a
      quotient or a sum leaves the range of binary64; the model does
      neither.  So a statement that an analysis is returned is made for
      records whose numbers are integers of at most 2^53 in magnitude
      ([Typing.modest]), and a statement that an average is the rounded
      mean is made for integral values whose magnitudes and count add up
      to less than 2^40 ([Typing.small_sum]).
    - [date.today()] is an explicit argument; the upstream API is an
      explicit function from the requested suburb to what [requests]
      observes. *)

From Stdlib Require Import ZArith QArith Qround Qabs Qminmax List String Ascii Bool.
From Stdlib Require Import DecimalString Permutation Lia Lqa.
Import ListNotations.

Set Warnings "-register-all".

Local Open Scope string_scope.
Local Open Scope Z_scope.

(** ** Python values, exceptions and builtins *)

Module Py.

(** The exception classes that occur: builtins raised by the analyzer and
    the classes of [requests.exceptions] the handler distinguishes. *)
Inductive exn : Type :=
| AttributeError
| TypeError
| ValueError
| ZeroDivisionError
| HTTPError (status_code : Z)   (* raised by [Response.raise_for_status] *)
| ConnectionError               (* no response received *)
| Timeout                       (* the 10 second timeout elapsed *)
| JSONDecodeError.              (* raised by [Response.json] *)

(** [isinstance(e, requests.exceptions.RequestException)].  In [requests]
    (2.27 and later) [JSONDecodeError] derives from [InvalidJSONError],
    which derives from [RequestException]. *)
Definition is_RequestException (e : exn) : bool :=
  match e with
  | HTTPError _ | ConnectionError | Timeout | JSONDecodeError => true
  | AttributeError | TypeError | ValueError | ZeroDivisionError => false
  end.

Inductive result (A : Type) : Type :=
| Ok (a : A)
| Raise (e : exn).
Arguments Ok {A} a.
Arguments Raise {A} e.

Definition bind {A B : Type} (c : result A) (k : A -> result B) : result B :=
  match c with
  | Ok a => k a
  | Raise e => Raise e
  end.

Notation "x <- c ;; k" := (bind c (fun x => k))
  (at level 61, c at next level, right associativity).

(** [c] raises nothing the handler would take for a failure of the
    request. *)
Definition only_builtin {A : Type} (c : result A) : Prop :=
  forall e, c = Raise e -> is_RequestException e = false.

(** [c] raises nothing but [AttributeError] and [TypeError]. *)
Definition only_lookup_errors {A : Type} (c : result A) : Prop :=
  forall e, c = Raise e -> e = AttributeError \/ e = TypeError.

(** [try: c  except: h], with a bare [except] clause. *)
Definition try_except {A : Type} (c : result A) (h : A) : A :=
  match c with
  | Ok a => a
  | Raise _ => h
  end.

(** What [json.loads] produces. *)
Inductive json : Type :=
| JNull
| JBool (b : bool)
| JInt (n : Z)
| JFloat (x : Q)
| JStr (s : string)
| JArr (items : list json)
| JObj (fields : list (string * json)).

(** Numbers as Python computes with them. *)
Inductive pynum : Type :=
| PInt (n : Z)
| PFloat (x : Q).

Definition num_to_Q (a : pynum) : Q :=
  match a with
  | PInt n => inject_Z n
  | PFloat x => x
  end.

(** [bool] is a subclass of [int]: [True] counts as 1 and [False] as 0. *)
Definition as_number (v : json) : option pynum :=
  match v with
  | JBool b => Some (PInt (if b then 1 else 0))
  | JInt n => Some (PInt n)
  | JFloat x => Some (PFloat x)
  | JNull | JStr _ | JArr _ | JObj _ => None
  end.

Definition num_to_json (a : pynum) : json :=
  match a with
  | PInt n => JInt n
  | PFloat x => JFloat x
  end.

(** [bool(v)]. *)
Definition truthy (v : json) : bool :=
  match v with
  | JNull => false
  | JBool b => b
  | JInt n => negb (n =? 0)
  | JFloat x => negb (Qeq_bool x 0)
  | JStr s => negb (s =? "")%string
  | JArr items => match items with [] => false | _ :: _ => true end
  | JObj fields => match fields with [] => false | _ :: _ => true end
  end.

Fixpoint lookup (k : string) (fields : list (string * json)) : option json :=
  match fields with
  | [] => None
  | (k', v) :: rest => if (k =? k')%string then Some v else lookup k rest
  end.

(** [v.get(k, default)]: only a [dict] has the method. *)
Definition py_get (v : json) (k : string) (default : json) : result json :=
  match v with
  | JObj fields =>
      Ok (match lookup k fields with Some x => x | None => default end)
  | _ => Raise AttributeError
  end.

(** [v.keys()]. *)
Definition py_keys (v : json) : result (list string) :=
  match v with
  | JObj fields => Ok (map fst fields)
  | _ => Raise AttributeError
  end.

(** [len(v)]. *)
Definition py_len (v : json) : result Z :=
  match v with
  | JStr s => Ok (Z.of_nat (String.length s))
  | JArr items => Ok (Z.of_nat (List.length items))
  | JObj fields => Ok (Z.of_nat (List.length fields))
  | JNull | JBool _ | JInt _ | JFloat _ => Raise TypeError
  end.

Fixpoint chars (s : string) : list json :=
  match s with
  | EmptyString => []
  | String c rest => JStr (String c EmptyString) :: chars rest
  end.

(** The items [for p in v] visits: the elements of a list, the characters
    of a string, the keys of a dict. *)
Definition py_iter (v : json) : result (list json) :=
  match v with
  | JArr items => Ok items
  | JStr s => Ok (chars s)
  | JObj fields => Ok (map (fun kv => JStr (fst kv)) fields)
  | JNull | JBool _ | JInt _ | JFloat _ => Raise TypeError
  end.

(** [v[:n]] on a list. *)
Definition py_slice_to (n : nat) (items : list json) : list json :=
  firstn n items.

(** Arithmetic: [int op int] is an [int], anything with a [float] is a
    [float]; [/] always gives a [float]. *)
Definition py_add (a b : pynum) : pynum :=
  match a, b with
  | PInt m, PInt n => PInt (m + n)
  | _, _ => PFloat (Qred (num_to_Q a + num_to_Q b))
  end.

Definition py_sub (a b : pynum) : pynum :=
  match a, b with
  | PInt m, PInt n => PInt (m - n)
  | _, _ => PFloat (Qred (num_to_Q a - num_to_Q b))
  end.

Definition py_mul (a b : pynum) : pynum :=
  match a, b with
  | PInt m, PInt n => PInt (m * n)
  | _, _ => PFloat (Qred (num_to_Q a * num_to_Q b))
  end.

Definition py_truediv (a b : pynum) : result pynum :=
  if Qeq_bool (num_to_Q b) 0 then Raise ZeroDivisionError
  else Ok (PFloat (Qred (num_to_Q a / num_to_Q b))).

(** [a < b]; comparisons between [int] and [float] are exact. *)
Definition py_lt (a b : pynum) : bool :=
  match Qcompare (num_to_Q a) (num_to_Q b) with
  | Lt => true
  | _ => false
  end.

(** [v > 0] for a JSON value [v]: ordering against an [int] is defined for
    numbers only. *)
Definition py_gt_zero (v : json) : result bool :=
  match as_number v with
  | Some a => Ok (py_lt (PInt 0) a)
  | None => Raise TypeError
  end.

(** [min(a, b)] and [max(a, b)]: the first argument is kept unless the
    second is strictly smaller (larger). *)
Definition py_min (a b : pynum) : pynum := if py_lt b a then b else a.
Definition py_max (a b : pynum) : pynum := if py_lt a b then b else a.

(** [sum(items)]: starts from the [int] 0 and adds from the left. *)
Fixpoint py_sum_from (acc : pynum) (items : list json) : result pynum :=
  match items with
  | [] => Ok acc
  | v :: rest =>
      match as_number v with
      | Some a => py_sum_from (py_add acc a) rest
      | None => Raise TypeError
      end
  end.

Definition py_sum (items : list json) : result pynum :=
  py_sum_from (PInt 0) items.

(** Round half to even on the exact value. *)
Definition round_half_even (x : Q) : Z :=
  let f := Qfloor x in
  match Qcompare (x - inject_Z f) (1 # 2) with
  | Lt => f
  | Gt => f + 1
  | Eq => if Z.even f then f else f + 1
  end.

(** [round(a)]: an [int]. *)
Definition py_round (a : pynum) : Z :=
  match a with
  | PInt n => n
  | PFloat x => round_half_even x
  end.

(** [round(a, 1)]: an [int] is returned as it is, a [float] is rounded to
    the closest multiple of 1/10. *)
Definition py_round1 (a : pynum) : pynum :=
  match a with
  | PInt n => PInt n
  | PFloat x => PFloat (Qred (inject_Z (round_half_even (x * 10)) / 10))
  end.

(** Truncation toward zero. *)
Definition Qtrunc (x : Q) : Z :=
  if Qle_bool 0 x then Qfloor x else Qceiling x.

(** [int(a)]. *)
Definition py_int (a : pynum) : Z :=
  match a with
  | PInt n => n
  | PFloat x => Qtrunc x
  end.

End Py.

(** ** Dates: [datetime.strptime(s, '%Y-%m-%d').date()] and [date.toordinal] *)

Module Dates.
Import Py.

Record date : Type := mkdate { year : Z; month : Z; day : Z }.

Definition is_leap (y : Z) : bool :=
  (y mod 4 =? 0) && (negb (y mod 100 =? 0) || (y mod 400 =? 0)).

Definition days_in_month (y m : Z) : Z :=
  match m with
  | 1 | 3 | 5 | 7 | 8 | 10 | 12 => 31
  | 4 | 6 | 9 | 11 => 30
  | 2 => if is_leap y then 29 else 28
  | _ => 0
  end.

Definition days_before_year (y : Z) : Z :=
  let p := y - 1 in p * 365 + p / 4 - p / 100 + p / 400.

Definition days_before_month (y m : Z) : Z :=
  match m with
  | 1 => 0 | 2 => 31 | 3 => 59 | 4 => 90 | 5 => 120 | 6 => 151
  | 7 => 181 | 8 => 212 | 9 => 243 | 10 => 273 | 11 => 304 | _ => 334
  end + (if (2 <? m) && is_leap y then 1 else 0).

(** Day number in the proleptic Gregorian calendar; 0001-01-01 is day 1. *)
Definition toordinal (d : date) : Z :=
  days_before_year (year d) + days_before_month (year d) (month d) + day d.

(** [(a - b).days]. *)
Definition days_between (a b : date) : Z := toordinal a - toordinal b.

(** The [date] constructor: [ValueError] outside the calendar. *)
Definition make_date (y m d : Z) : result date :=
  if (1 <=? y) && (y <=? 9999) && (1 <=? m) && (m <=? 12)
     && (1 <=? d) && (d <=? days_in_month y m)
  then Ok (mkdate y m d)
  else Raise ValueError.

Definition between (lo hi c : ascii) : bool :=
  ((nat_of_ascii lo <=? nat_of_ascii c) && (nat_of_ascii c <=? nat_of_ascii hi))%nat.

Definition is_digit (c : ascii) : bool := between "0" "9" c.

Definition digit_value (c : ascii) : Z := Z.of_nat (nat_of_ascii c) - 48.

(** [%Y] is the regular expression [\d\d\d\d]. *)
Definition match_Y (s : list ascii) : option (Z * list ascii) :=
  match s with
  | a :: b :: c :: d :: rest =>
      if is_digit a && is_digit b && is_digit c && is_digit d
      then Some (digit_value a * 1000 + digit_value b * 100
                 + digit_value c * 10 + digit_value d, rest)
      else None
  | _ => None
  end.

(** [%m] is [1[0-2]|0[1-9]|[1-9]]: the ways it can match a prefix, in the
    order the alternatives are tried. *)
Definition match_m (s : list ascii) : list (Z * list ascii) :=
  match s with
  | a :: b :: rest =>
      (if Ascii.eqb a "1" && between "0" "2" b
       then [(10 + digit_value b, rest)] else [])
      ++ (if Ascii.eqb a "0" && between "1" "9" b
          then [(digit_value b, rest)] else [])
  | _ => []
  end
  ++ match s with
     | a :: rest => if between "1" "9" a then [(digit_value a, rest)] else []
     | [] => []
     end.

(** [%d] is [3[0-1]|[1-2]\d|0[1-9]|[1-9]| [1-9]]. *)
Definition match_d (s : list ascii) : list (Z * list ascii) :=
  match s with
  | a :: b :: rest =>
      (if Ascii.eqb a "3" && between "0" "1" b
       then [(30 + digit_value b, rest)] else [])
      ++ (if between "1" "2" a && is_digit b
          then [(digit_value a * 10 + digit_value b, rest)] else [])
      ++ (if Ascii.eqb a "0" && between "1" "9" b
          then [(digit_value b, rest)] else [])
  | _ => []
  end
  ++ match s with
     | a :: rest => if between "1" "9" a then [(digit_value a, rest)] else []
     | [] => []
     end
  ++ match s with
     | a :: b :: rest =>
         if Ascii.eqb a " " && between "1" "9" b
         then [(digit_value b, rest)] else []
     | _ => []
     end.

(** After a literal [-]. *)
Definition after_dash (s : list ascii) : option (list ascii) :=
  match s with
  | c :: rest => if Ascii.eqb c "-" then Some rest else None
  | [] => None
  end.

(** The first way, with backtracking over the alternatives of the month,
    in which [-%d] matches what follows the month. *)
Fixpoint first_md (ms : list (Z * list ascii)) : option (Z * Z * list ascii) :=
  match ms with
  | [] => None
  | (m, s) :: others =>
      match after_dash s with
      | Some s' =>
          match match_d s' with
          | (d, rest) :: _ => Some (m, d, rest)
          | [] => first_md others
          end
      | None => first_md others
      end
  end.

(** The match of [%Y-%m-%d] at the start of [s]: the three groups and the
    text left unmatched. *)
Definition match_format (s : list ascii) : option (Z * Z * Z * list ascii) :=
  match match_Y s with
  | Some (y, s1) =>
      match after_dash s1 with
      | Some s2 =>
          match first_md (match_m s2) with
          | Some (m, d, rest) => Some (y, m, d, rest)
          | None => None
          end
      | None => None
      end
  | None => None
  end.

(** [datetime.strptime(v, '%Y-%m-%d').date()]: [TypeError] when [v] is not
    a [str]; [ValueError] when the text does not match the format, when
    text remains after the match, or when the day is not in the calendar. *)
Definition strptime (v : json) : result date :=
  match v with
  | JStr s =>
      match match_format (list_ascii_of_string s) with
      | Some (y, m, d, []) => make_date y m d
      | Some (_, _, _, _ :: _) => Raise ValueError
      | None => Raise ValueError
      end
  | _ => Raise TypeError
  end.

(** [d.isoformat()]: the zero-padded text [YYYY-MM-DD]. *)
Definition digit_char (k : Z) : ascii := ascii_of_nat (Z.to_nat (48 + k)).

Definition two_digits (n : Z) : list ascii :=
  [digit_char (n / 10); digit_char (n mod 10)].

Definition four_digits (n : Z) : list ascii :=
  [digit_char (n / 1000); digit_char (n / 100 mod 10);
   digit_char (n / 10 mod 10); digit_char (n mod 10)].

Definition isoformat (d : date) : string :=
  string_of_list_ascii
    (four_digits (year d)
     ++ "-"%char :: two_digits (month d) ++ "-"%char :: two_digits (day d)).

End Dates.

(** ** The application: [app.py] *)

Module App.
Import Py Dates.

Record Summary : Type := mkSummary {
  total_listings : Z;
  avg_sale_price : Z;
  avg_days_on_market : Z;
  avg_bedrooms : pynum
}.

Record Score : Type := mkScore {
  label : string;
  value : Z;
  explanation : string
}.

Record Scorecard : Type := mkScorecard {
  liquidity_risk : Score;
  family_growth_potential : Score
}.

Record Analysis : Type := mkAnalysis {
  summary : Summary;
  scorecard : Scorecard;
  raw_properties : list json
}.

(** A loop (or comprehension) over [items] that appends at most one
    element per item, in order; it stops at the first exception. *)
Fixpoint collect {A : Type} (body : json -> result (option A))
    (items : list json) : result (list A) :=
  match items with
  | [] => Ok []
  | p :: rest =>
      x <- body p ;;
      xs <- collect body rest ;;
      Ok (match x with Some a => a :: xs | None => xs end)
  end.

(** [sum(xs) / len(xs) if xs else 0]. *)
Definition mean_or_zero (xs : list json) : result pynum :=
  match xs with
  | [] => Ok (PInt 0)
  | _ :: _ =>
      s <- py_sum xs ;;
      py_truediv s (PInt (Z.of_nat (List.length xs)))
  end.

(** Line 35: [p.get('price', 0) for p in properties
    if p.get('price') is not None]. *)
Definition sale_price_of (p : json) : result (option json) :=
  cond <- py_get p "price" JNull ;;
  match cond with
  | JNull => Ok None
  | _ => v <- py_get p "price" (JInt 0) ;; Ok (Some v)
  end.

(** Lines 44-51: the body of the days-on-market loop. *)
Definition days_on_market_of (today : date) (p : json) : result (option Z) :=
  listing_date_str <- py_get p "listing_date" JNull ;;
  if truthy listing_date_str then
    Ok (try_except
          (listing_date <- strptime listing_date_str ;;
           Ok (Some (days_between today listing_date)))
          None)
  else Ok None.

(** Lines 61-64: the body of the bedrooms loop. *)
Definition bedrooms_of (p : json) : result (option json) :=
  attrs <- py_get p "attributes" (JObj []) ;;
  beds <- py_get attrs "bedrooms" (JInt 0) ;;
  if truthy beds then
    positive <- py_gt_zero beds ;;
    Ok (if positive then Some beds else None)
  else Ok None.

(** Line 56. *)
Definition risk_score_of (avg_dom : Z) : pynum :=
  py_max (PInt 0)
    (py_min (PInt 100)
       (py_sub (PInt 100)
          (py_mul (py_sub (PInt avg_dom) (PInt 20)) (PFloat (3 # 2))))).

(** Line 69. *)
Definition growth_score_of (avg_beds : pynum) : result pynum :=
  q <- py_truediv avg_beds (PInt 4) ;;
  Ok (py_max (PInt 0) (py_min (PInt 100) (py_mul q (PInt 100)))).

Definition risk_explanation : string :=
  "Measures how quickly properties are selling (Days on Market). Higher score means lower risk and faster sale times.".

Definition growth_explanation : string :=
  "A heuristic based on average property size (bedrooms), indicating stable, long-term family demand.".

(** [analyze_property_data(data)], with [date.today()] as an argument.
    [Ok None] is Python's [return None]. *)
Definition analyze_property_data (today : date) (data : json)
    : result (option Analysis) :=
  _ <- py_keys data ;;
  properties <- py_get data "results" (JArr []) ;;
  total <- py_len properties ;;
  if negb (truthy properties) then Ok None
  else
    items <- py_iter properties ;;
    sale_prices <- collect sale_price_of items ;;
    price_mean <- mean_or_zero sale_prices ;;
    let avg_price := py_round price_mean in
    dom_list <- collect (days_on_market_of today) items ;;
    dom_mean <- mean_or_zero (map JInt dom_list) ;;
    let avg_dom := py_round dom_mean in
    let risk_score := risk_score_of avg_dom in
    bedrooms <- collect bedrooms_of items ;;
    beds_mean <- mean_or_zero bedrooms ;;
    let avg_beds := py_round1 beds_mean in
    growth_score <- growth_score_of avg_beds ;;
    Ok (Some
      {| summary :=
           {| total_listings := total;
              avg_sale_price := avg_price;
              avg_days_on_market := avg_dom;
              avg_bedrooms := avg_beds |};
         scorecard :=
           {| liquidity_risk :=
                {| label := "Liquidity Risk Score";
                   value := py_int risk_score;
                   explanation := risk_explanation |};
              family_growth_potential :=
                {| label := "Family Growth Potential";
                   value := py_int growth_score;
                   explanation := growth_explanation |} |};
         raw_properties := py_slice_to 5 items |}).

(** What [jsonify] serialises. *)
Definition score_to_json (s : Score) : json :=
  JObj [("label", JStr (label s)); ("value", JInt (value s));
        ("explanation", JStr (explanation s))].

Definition analysis_to_json (a : Analysis) : json :=
  JObj [("summary",
         JObj [("total_listings", JInt (total_listings (summary a)));
               ("avg_sale_price", JInt (avg_sale_price (summary a)));
               ("avg_days_on_market", JInt (avg_days_on_market (summary a)));
               ("avg_bedrooms", num_to_json (avg_bedrooms (summary a)))]);
        ("scorecard",
         JObj [("liquidity_risk", score_to_json (liquidity_risk (scorecard a)));
               ("family_growth_potential",
                score_to_json (family_growth_potential (scorecard a)))]);
        ("raw_properties", JArr (raw_properties a))].

(** The upstream response as [requests] sees it: the status code and the
    body, [None] when the body is not valid JSON. *)
Record Response : Type := mkResponse {
  status_code : Z;
  body_json : option json
}.

(** [requests.get(API_URL, params={"suburb": name}, ...)]: a response, or
    an exception when none was received. *)
Definition Upstream : Type := string -> result Response.

Definition raise_for_status (r : Response) : result unit :=
  if (400 <=? status_code r) && (status_code r <? 600)
  then Raise (HTTPError (status_code r))
  else Ok tt.

Definition response_json (r : Response) : result json :=
  match body_json r with
  | Some v => Ok v
  | None => Raise JSONDecodeError
  end.

(** What the Flask view returns: [jsonify(body), status]. *)
Record Reply : Type := mkReply {
  reply_status : Z;
  reply_body : json
}.

Definition error_reply (message : string) (status : Z) : Reply :=
  {| reply_status := status; reply_body := JObj [("error", JStr message)] |}.

Definition string_of_Z (n : Z) : string :=
  NilZero.string_of_int (Z.to_int n).

(** Lines 139-153: the [except] clauses, tried in order. *)
Definition handle_exception (suburb_name : string) (e : exn) : Reply :=
  match e with
  | HTTPError code =>
      let error_message :=
        if code =? 401 then
          "API Authentication Failed. Please check the Bearer token."
        else if code =? 404 then
          ("Suburb '" ++ suburb_name ++ "' not found or no data available.")%string
        else ("An API error occurred: HTTP " ++ string_of_Z code)%string in
      error_reply error_message code
  | _ =>
      if is_RequestException e then
        error_reply "Could not connect to the external Microburbs API." 503
      else
        error_reply "An unexpected server error occurred during analysis." 500
  end.

(** Lines 121-137: the body of the [try]. *)
Definition fetch_and_analyze (today : date) (upstream : Upstream)
    (suburb_name : string) : result Reply :=
  response <- upstream suburb_name ;;
  _ <- raise_for_status response ;;
  raw_data <- response_json response ;;
  analysis_result <- analyze_property_data today raw_data ;;
  match analysis_result with
  | None =>
      Ok (error_reply ("No property data found for " ++ suburb_name
                       ++ ". Please try a different suburb.")%string 404)
  | Some a =>
      Ok {| reply_status := 200;
            reply_body := JObj [("suburb", JStr suburb_name);
                                ("analysis", analysis_to_json a)] |}
  end.

(** [analyze_suburb()]: [suburb] is [request.args.get('suburb')].  The
    second component lists the outbound requests made, by the suburb they
    were made for. *)
Definition analyze_suburb (today : date) (upstream : Upstream)
    (suburb : option string) : Reply * list string :=
  match suburb with
  | None => (error_reply "Suburb name is required." 400, [])
  | Some suburb_name =>
      if negb (truthy (JStr suburb_name)) then
        (error_reply "Suburb name is required." 400, [])
      else
        (match fetch_and_analyze today upstream suburb_name with
         | Ok reply => reply
         | Raise e => handle_exception suburb_name e
         end, [suburb_name])
  end.

End App.

(** ** The analyzer in the words of the specification *)

Module Spec.
Import Py Dates.
Local Open Scope Q_scope.

(** Field [k] of a record, when the record has it. *)
Definition field (p : json) (k : string) : option json :=
  match p with
  | JObj fields => lookup k fields
  | _ => None
  end.

(** Field [k] when it is present and not null. *)
Definition present (p : json) (k : string) : option json :=
  match field p k with
  | Some JNull | None => None
  | Some v => Some v
  end.

(** The numeric value of a JSON value; a boolean counts as 1 or 0, as it
    does in Python arithmetic. *)
Definition number (v : json) : option Q :=
  match as_number v with
  | Some a => Some (num_to_Q a)
  | None => None
  end.

Fixpoint filter_map {A B : Type} (f : A -> option B) (l : list A) : list B :=
  match l with
  | [] => []
  | x :: rest =>
      match f x with
      | Some y => y :: filter_map f rest
      | None => filter_map f rest
      end
  end.

(** The prices that enter the average: every price that is present and
    not null. *)
Definition prices (records : list json) : list json :=
  filter_map (fun p => present p "price") records.

(** A listing date that parses as [YYYY-MM-DD]. *)
Definition parsed_date (v : json) : option date :=
  match strptime v with
  | Ok d => Some d
  | Raise _ => None
  end.

Definition days_on_market_of (today : date) (p : json) : option Z :=
  match field p "listing_date" with
  | Some v =>
      match parsed_date v with
      | Some d => Some (days_between today d)
      | None => None
      end
  | None => None
  end.

(** [(today - listing_date).days] of every record whose date parses. *)
Definition days_on_market (today : date) (records : list json) : list Z :=
  filter_map (days_on_market_of today) records.

Definition bedrooms_of (p : json) : option Q :=
  match field p "attributes" with
  | Some attrs =>
      match field attrs "bedrooms" with
      | Some v =>
          match number v with
          | Some q => if Qlt_le_dec 0 q then Some q else None
          | None => None
          end
      | None => None
      end
  | None => None
  end.

(** The bedroom counts that are present and strictly greater than 0. *)
Definition bedrooms (records : list json) : list Q :=
  filter_map bedrooms_of records.

Fixpoint Qsum (xs : list Q) : Q :=
  match xs with
  | [] => 0
  | x :: rest => x + Qsum rest
  end.

(** Sum divided by count. *)
Definition mean (xs : list Q) : Q :=
  Qsum xs / inject_Z (Z.of_nat (List.length xs)).

(** [n] is [x] rounded to the nearest integer. *)
Definition rounds_to (x : Q) (n : Z) : Prop :=
  Qabs (x - inject_Z n) <= 1 # 2.

(** [y] is [x] rounded to one decimal. *)
Definition rounds_to_tenth (x y : Q) : Prop :=
  (exists k : Z, y == inject_Z k / 10) /\ Qabs (x - y) <= 1 # 20.

(** [n] is the average of [xs] rounded to the nearest integer, 0 when
    [xs] is empty. *)
Definition rounded_average (xs : list Q) (n : Z) : Prop :=
  match xs with
  | [] => n = 0%Z
  | _ :: _ => rounds_to (mean xs) n
  end.

(** [y] is the average of [xs] rounded to one decimal, 0 when [xs] is
    empty. *)
Definition rounded_average_tenth (xs : list Q) (y : Q) : Prop :=
  match xs with
  | [] => y == 0
  | _ :: _ => rounds_to_tenth (mean xs) y
  end.

Definition clamp (x lo hi : Q) : Q := Qmax lo (Qmin hi x).

(** Truncation to an integer: the fractional part is dropped. *)
Definition truncate (x : Q) : Z := Z.quot (Qnum x) (Zpos (Qden x)).

(** [clamp(100 - (avg_dom - 20) * 1.5, 0, 100)], truncated. *)
Definition liquidity_risk (avg_dom : Z) : Z :=
  truncate (clamp (100 - (inject_Z avg_dom - 20) * (3 # 2)) 0 100).

(** [clamp((avg_bedrooms / 4) * 100, 0, 100)], truncated. *)
Definition growth_potential (avg_bedrooms : Q) : Z :=
  truncate (clamp ((avg_bedrooms / 4) * 100) 0 100).

End Spec.

(** ** Inputs on which the analyzer returns *)

Module Typing.
Import Py.

Definition is_number (v : json) : bool :=
  match as_number v with Some _ => true | None => false end.

(** A listing record the analyzer can process: an object whose [price],
    when present and not null, is a number; whose [attributes], when
    present, is an object; and whose [bedrooms], when present, is a number
    or a value Python takes for false.  [listing_date] may be anything. *)
Definition well_typed (p : json) : bool :=
  match p with
  | JObj fields =>
      match lookup "price" fields with
      | None | Some JNull => true
      | Some v => is_number v
      end
      && match lookup "attributes" fields with
         | None => true
         | Some (JObj attrs) =>
             match lookup "bedrooms" attrs with
             | None => true
             | Some b => negb (truthy b) || is_number b
             end
         | Some _ => false
         end
  | _ => false
  end.

(** The same shape of record, with [ok] deciding which numbers may stand
    for the price and for a bedroom count Python takes for true. *)
Definition typed_with (ok : json -> bool) (p : json) : bool :=
  match p with
  | JObj fields =>
      match lookup "price" fields with
      | None | Some JNull => true
      | Some v => ok v
      end
      && match lookup "attributes" fields with
         | None => true
         | Some (JObj attrs) =>
             match lookup "bedrooms" attrs with
             | None => true
             | Some b => negb (truthy b) || ok b
             end
         | Some _ => false
         end
  | _ => false
  end.

(** A JSON integer: Python computes with it exactly. *)
Definition is_integer (v : json) : bool :=
  match v with
  | JInt _ | JBool _ => true
  | _ => false
  end.

(** A JSON integer that binary64 holds exactly. *)
Definition is_modest_integer (v : json) : bool :=
  match v with
  | JInt n => Z.abs n <=? 2 ^ 53
  | JBool _ => true
  | _ => false
  end.

(** A well-typed record whose price and bedroom count are integers. *)
Definition integral (p : json) : bool := typed_with is_integer p.

(** A well-typed record whose price and bedroom count are integers of at
    most 2^53 in magnitude: their average is within the range of
    binary64, so that Python's division does not overflow. *)
Definition modest (p : json) : bool := typed_with is_modest_integer p.

(** Values for which Python's average is the exact one: each is integral,
    and the magnitudes and the count add up to less than 2^40, so that
    every sum is exact in binary64 and the quotient cannot be rounded
    across a tie. *)
Definition small_sum (qs : list Q) : bool :=
  forallb (fun q => Qeq_bool q (inject_Z (Qfloor q))) qs
  && (fold_right (fun q acc => Z.abs (Qfloor q) + 1 + acc) 0 qs <? 2 ^ 40).

End Typing.

(** ** Records that lack a value *)

Module Missing.
Import Py.

(** No price: the field is absent or null. *)
Definition lacks_price (p : json) : bool :=
  match Spec.field p "price" with
  | None | Some JNull => true
  | Some _ => false
  end.

(** No usable listing date: the field is absent, or holds a value of any
    type that does not parse as a date. *)
Definition lacks_date (p : json) : bool :=
  match Spec.field p "listing_date" with
  | None => true
  | Some v =>
      match Spec.parsed_date v with
      | None => true
      | Some _ => false
      end
  end.

(** No bedroom count: [attributes] or its [bedrooms] is absent, or
    [bedrooms] is null or a number that is not above 0. *)
Definition lacks_bedrooms (p : json) : bool :=
  match Spec.field p "attributes" with
  | None => true
  | Some attrs =>
      match attrs, Spec.field attrs "bedrooms" with
      | JObj _, None | JObj _, Some JNull => true
      | JObj _, Some v =>
          match Spec.number v with
          | Some q => Qle_bool q 0
          | None => false
          end
      | _, _ => false
      end
  end.

Definition lacks_all (p : json) : bool :=
  lacks_price p && lacks_date p && lacks_bedrooms p.

End Missing.

(** ** What the analyzer reads of a record *)

Module Reads.
Import Py.

(** [p'] is an object that holds the same [price], [listing_date] and
    [attributes] as [p]; its other fields are free. *)
Definition same_fields (p p' : json) : Prop :=
  (exists kvs, p' = JObj kvs)
  /\ Spec.field p "price" = Spec.field p' "price"
  /\ Spec.field p "listing_date" = Spec.field p' "listing_date"
  /\ Spec.field p "attributes" = Spec.field p' "attributes".

End Reads.

(** ** Sample data *)

Module Samples.
Import Py Dates App.

Definition today : date := mkdate 2025 10 21.

Definition listing (price : Z) (listed : string) (beds : Z) : json :=
  JObj [("price", JInt price); ("listing_date", JStr listed);
        ("attributes", JObj [("bedrooms", JInt beds)])].

Definition payload (records : list json) : json :=
  JObj [("results", JArr records)].

(** The example of the specification: listed 10 and 30 days ago. *)
Definition two_listings : list json :=
  [listing 500000 "2025-10-11" 3; listing 600000 "2025-09-21" 5].

(** A record with none of the three values. *)
Definition bare_listing : json := JObj [].

Definition priced (price : json) : json := JObj [("price", price)].

Definition with_bedrooms (beds : json) : json :=
  JObj [("attributes", JObj [("bedrooms", beds)])].

Definition seven_listings : list json :=
  map (fun n => listing (100000 * n) "2025-10-01" n) [1; 2; 3; 4; 5; 6; 7].

(** A listing as an upstream API would send it, with fields the analyzer
    does not use. *)
Definition full_listing (address : string) (price : Z) (listed : string)
    (beds : Z) : json :=
  JObj [("address", JStr address); ("price", JInt price);
        ("property_type", JStr "House"); ("listing_date", JStr listed);
        ("attributes", JObj [("bedrooms", JInt beds)])].

Definition upstream_ok (body : json) : Upstream :=
  fun _ => Ok {| status_code := 200; body_json := Some body |}.

Definition upstream_not_json : Upstream :=
  fun _ => Ok {| status_code := 200; body_json := None |}.

End Samples.

Import Py Dates App.

(** ** Reasoning about [result] and about loops *)

Lemma bind_Ok_inv {A B : Type} (c : result A) (k : A -> result B) (b : B) :
  bind c k = Ok b -> exists a, c = Ok a /\ k a = Ok b.
Proof.
  destruct c as [a | e]; simpl; intros H.
  - exists a. split; [reflexivity | exact H].
  - discriminate H.
Qed.

Tactic Notation "inv_bind" hyp(H) "as" ident(x) ident(Hx) :=
  apply bind_Ok_inv in H; destruct H as (x & Hx & H).

Section Collect.
Context {A : Type} (body : json -> result (option A)).

Lemma collect_Ok_inv (items : list json) (xs : list A) :
  collect body items = Ok xs ->
  Forall (fun p => exists x, body p = Ok x) items
  /\ xs = Spec.filter_map
            (fun p => match body p with Ok x => x | Raise _ => None end)
            items.
Proof.
  revert xs. induction items as [| p rest IH]; simpl; intros xs H.
  - inversion H. split; [constructor | reflexivity].
  - inv_bind H as x Hx. inv_bind H as xs' Hxs. inversion H; subst; clear H.
    destruct (IH _ Hxs) as [Hall Heq].
    split.
    + constructor; [exists x; assumption | assumption].
    + rewrite Hx. destruct x; rewrite <- Heq; reflexivity.
Qed.

Lemma collect_Ok_intro (f : json -> option A) (items : list json) :
  Forall (fun p => body p = Ok (f p)) items ->
  collect body items = Ok (Spec.filter_map f items).
Proof.
  induction 1 as [| p rest Hp _ IH]; simpl.
  - reflexivity.
  - rewrite Hp, IH. simpl. destruct (f p); reflexivity.
Qed.

Lemma collect_agrees (f : json -> option A) (items : list json) (xs : list A) :
  (forall p x, body p = Ok x -> x = f p) ->
  collect body items = Ok xs ->
  xs = Spec.filter_map f items.
Proof.
  intros Hf H. apply collect_Ok_inv in H. destruct H as [Hall ->].
  induction Hall as [| p rest [x Hp] _ IH]; simpl.
  - reflexivity.
  - rewrite Hp. rewrite <- (Hf _ _ Hp). destruct x; rewrite IH; reflexivity.
Qed.
End Collect.

(** ** Rounding *)

Lemma round_half_even_nearest (x : Q) :
  Spec.rounds_to x (round_half_even x).
Proof.
  unfold Spec.rounds_to, round_half_even.
  pose proof (Qfloor_le x) as Hlo.
  pose proof (Qlt_floor x) as Hhi.
  rewrite inject_Z_plus in Hhi. change (inject_Z 1) with 1%Q in Hhi.
  apply Qabs_Qle_condition.
  destruct (Qcompare (x - inject_Z (Qfloor x)) (1 # 2)) eqn:Hc.
  - apply Qeq_alt in Hc.
    destruct (Z.even (Qfloor x));
      [| rewrite inject_Z_plus; change (inject_Z 1) with 1%Q]; lra.
  - apply Qlt_alt in Hc. lra.
  - apply Qgt_alt in Hc.
    rewrite inject_Z_plus; change (inject_Z 1) with 1%Q. lra.
Qed.

Lemma round_half_even_comp : Proper (Qeq ==> eq) round_half_even.
Proof.
  intros x y Hxy. unfold round_half_even.
  rewrite (Qfloor_comp _ _ Hxy).
  assert (H : (x - inject_Z (Qfloor y) == y - inject_Z (Qfloor y))%Q)
    by (rewrite Hxy; reflexivity).
  rewrite (Qcompare_comp _ _ H _ _ (Qeq_refl (1 # 2))).
  reflexivity.
Qed.

(** ** Sums and averages *)

Lemma py_add_value (a b : pynum) :
  (num_to_Q (py_add a b) == num_to_Q a + num_to_Q b)%Q.
Proof.
  destruct a as [m | x], b as [n | y]; unfold py_add; cbn [num_to_Q];
    [rewrite inject_Z_plus; reflexivity | apply Qred_correct ..].
Qed.

Lemma map_Some_inj {A : Type} (xs ys : list A) :
  map Some xs = map Some ys -> xs = ys.
Proof.
  revert ys. induction xs as [| x xs IH]; intros [| y ys] H;
    try discriminate; [reflexivity |].
  simpl in H. inversion H. f_equal. apply IH. assumption.
Qed.

Lemma py_sum_from_value (items : list json) (acc s : pynum) :
  py_sum_from acc items = Ok s ->
  exists qs, map Spec.number items = map Some qs
             /\ (num_to_Q s == num_to_Q acc + Spec.Qsum qs)%Q.
Proof.
  revert acc. induction items as [| v rest IH]; simpl; intros acc H.
  - inversion H. exists []. split; [reflexivity | simpl; lra].
  - unfold Spec.number at 1. destruct (as_number v) as [a |]; [| discriminate].
    destruct (IH _ H) as (qs & Hqs & Hsum).
    exists (num_to_Q a :: qs). split.
    + simpl. rewrite Hqs. reflexivity.
    + simpl. rewrite Hsum, py_add_value. lra.
Qed.

Lemma py_sum_from_total (items : list json) (acc : pynum) :
  Forall (fun v => Typing.is_number v = true) items ->
  exists s, py_sum_from acc items = Ok s.
Proof.
  intros H. revert acc. induction H as [| v rest Hv _ IH]; simpl; intros acc.
  - exists acc. reflexivity.
  - unfold Typing.is_number in Hv.
    destruct (as_number v); [apply IH | discriminate].
Qed.

Lemma count_nonzero (n : nat) :
  Qeq_bool (num_to_Q (PInt (Z.of_nat (S n)))) 0 = false.
Proof.
  apply not_true_is_false. intros H. apply Qeq_bool_eq in H.
  cbn [num_to_Q] in H. change 0%Q with (inject_Z 0) in H.
  apply (proj1 (inject_Z_injective _ _)) in H. lia.
Qed.

Lemma py_truediv_value (a b m : pynum) :
  py_truediv a b = Ok m ->
  exists x, m = PFloat x /\ (x == num_to_Q a / num_to_Q b)%Q.
Proof.
  unfold py_truediv. destruct (Qeq_bool (num_to_Q b) 0); [discriminate |].
  intros H. exists (Qred (num_to_Q a / num_to_Q b)).
  split; [congruence | apply Qred_correct].
Qed.

Lemma mean_or_zero_value (xs : list json) (m : pynum) :
  mean_or_zero xs = Ok m ->
  exists qs, map Spec.number xs = map Some qs
             /\ match qs with
                | [] => m = PInt 0
                | _ :: _ => exists x, m = PFloat x /\ (x == Spec.mean qs)%Q
                end.
Proof.
  destruct xs as [| v rest]; unfold mean_or_zero; intros H.
  - inversion H. exists []. split; reflexivity.
  - inv_bind H as x Hx. unfold py_sum in Hx.
    change (List.length (v :: rest)) with (S (List.length rest)) in H.
    apply py_sum_from_value in Hx. destruct Hx as (qs & Hqs & Hsum).
    exists qs. split; [exact Hqs |].
    assert (Hlen : List.length qs = S (List.length rest)).
    { rewrite <- (length_map Some qs), <- Hqs, length_map. reflexivity. }
    destruct qs as [| q qs']; [discriminate Hlen |].
    apply py_truediv_value in H. destruct H as (y & -> & Hy).
    exists y. split; [reflexivity |].
    rewrite Hy. unfold Spec.mean. rewrite Hlen, Hsum.
    cbn [num_to_Q]. field.
    change 0%Q with (inject_Z 0). intros Hz. apply (proj1 (inject_Z_injective _ _)) in Hz. lia.
Qed.

Lemma mean_or_zero_total (xs : list json) :
  Forall (fun v => Typing.is_number v = true) xs ->
  exists m, mean_or_zero xs = Ok m.
Proof.
  intros H. destruct xs as [| v rest].
  - exists (PInt 0). reflexivity.
  - destruct (py_sum_from_total _ (PInt 0) H) as [s Hs].
    unfold mean_or_zero, py_sum. rewrite Hs. cbn [bind].
    change (List.length (v :: rest)) with (S (List.length rest)).
    unfold py_truediv. rewrite count_nonzero. eexists. reflexivity.
Qed.

Lemma mean_or_zero_rounded (xs : list json) (m : pynum) :
  mean_or_zero xs = Ok m ->
  exists qs, map Spec.number xs = map Some qs
             /\ Spec.rounded_average qs (py_round m).
Proof.
  intros H. apply mean_or_zero_value in H. destruct H as (qs & Hqs & Hm).
  exists qs. split; [exact Hqs |].
  destruct qs as [| q qs'].
  - subst m. reflexivity.
  - destruct Hm as (x & -> & Hx).
    cbn [py_round Spec.rounded_average].
    unfold Spec.rounds_to. rewrite <- Hx. apply round_half_even_nearest.
Qed.

Lemma mean_or_zero_rounded_tenth (xs : list json) (m : pynum) :
  mean_or_zero xs = Ok m ->
  exists qs, map Spec.number xs = map Some qs
             /\ Spec.rounded_average_tenth qs (num_to_Q (py_round1 m)).
Proof.
  intros H. apply mean_or_zero_value in H. destruct H as (qs & Hqs & Hm).
  exists qs. split; [exact Hqs |].
  destruct qs as [| q qs'].
  - subst m. reflexivity.
  - destruct Hm as (x & -> & Hx).
    cbn [py_round1 num_to_Q Spec.rounded_average_tenth].
    split.
    + exists (round_half_even (x * 10)). apply Qred_correct.
    + rewrite Qred_correct, <- Hx.
      pose proof (round_half_even_nearest (x * 10)) as Hr.
      unfold Spec.rounds_to in Hr.
      apply Qabs_Qle_condition in Hr. apply Qabs_Qle_condition.
      set (k := inject_Z (round_half_even (x * 10))) in *.
      assert (Hk : (k / 10 == k * (1 # 10))%Q) by (field).
      rewrite Hk. lra.
Qed.

Lemma number_JInt (zs : list Z) :
  map Spec.number (map JInt zs) = map Some (map inject_Z zs).
Proof.
  induction zs as [| z zs IH]; simpl; [reflexivity |].
  rewrite IH. reflexivity.
Qed.

(** ** The two scores *)

Lemma Qtrunc_truncate (x : Q) : Qtrunc x = Spec.truncate x.
Proof.
  destruct x as [n d]. unfold Qtrunc, Spec.truncate, Qceiling, Qfloor, Qle_bool.
  cbn [Qnum Qden Qopp]. rewrite Z.mul_1_r. change (0 * Z.pos d) with 0.
  destruct (Z.leb_spec 0 n) as [Hn | Hn].
  - symmetry. apply Z.quot_div_nonneg; lia.
  - rewrite <- (Z.quot_div_nonneg (- n) (Z.pos d)) by lia.
    rewrite Z.quot_opp_l by lia. lia.
Qed.

Lemma Qtrunc_comp : Proper (Qeq ==> eq) Qtrunc.
Proof.
  intros x y Hxy. unfold Qtrunc.
  rewrite (Qleb_comp 0%Q 0%Q (Qeq_refl 0%Q) x y Hxy).
  rewrite (Qfloor_comp _ _ Hxy), (Qceiling_comp _ _ Hxy). reflexivity.
Qed.

Lemma py_int_value (a : pynum) : py_int a = Qtrunc (num_to_Q a).
Proof.
  destruct a as [n | x]; cbn [py_int num_to_Q]; [| reflexivity].
  unfold Qtrunc. rewrite Qfloor_Z, Qceiling_Z. destruct (Qle_bool _ _); reflexivity.
Qed.

Lemma py_lt_spec (a b : pynum) :
  if py_lt a b then (num_to_Q a < num_to_Q b)%Q
  else (num_to_Q b <= num_to_Q a)%Q.
Proof.
  unfold py_lt. destruct (Qcompare (num_to_Q a) (num_to_Q b)) eqn:Hc.
  - apply Qeq_alt in Hc. rewrite Hc. apply Qle_refl.
  - apply Qlt_alt in Hc. exact Hc.
  - apply Qgt_alt in Hc. apply Qlt_le_weak. exact Hc.
Qed.

Lemma py_min_value (a b : pynum) :
  (num_to_Q (py_min a b) == Qmin (num_to_Q a) (num_to_Q b))%Q.
Proof.
  unfold py_min. pose proof (py_lt_spec b a) as H.
  destruct (py_lt b a); symmetry.
  - apply Q.min_r. apply Qlt_le_weak. exact H.
  - apply Q.min_l. exact H.
Qed.

Lemma py_max_value (a b : pynum) :
  (num_to_Q (py_max a b) == Qmax (num_to_Q a) (num_to_Q b))%Q.
Proof.
  unfold py_max. pose proof (py_lt_spec a b) as H.
  destruct (py_lt a b); symmetry.
  - apply Q.max_r. apply Qlt_le_weak. exact H.
  - apply Q.max_l. exact H.
Qed.

(** [int(max(0, min(100, a)))] is the clamp of [a], truncated. *)
Lemma clamp_truncated (a : pynum) :
  py_int (py_max (PInt 0) (py_min (PInt 100) a))
  = Spec.truncate (Spec.clamp (num_to_Q a) 0 100).
Proof.
  rewrite py_int_value, <- Qtrunc_truncate.
  apply Qtrunc_comp. unfold Spec.clamp.
  rewrite py_max_value, py_min_value. reflexivity.
Qed.

Lemma clamp_bounds (x : Q) : (0 <= Spec.clamp x 0 100 <= 100)%Q.
Proof.
  unfold Spec.clamp. split.
  - apply Q.le_max_l.
  - apply Q.max_lub; [discriminate |]. apply Q.le_min_l.
Qed.

Lemma truncate_clamp_bounds (x : Q) :
  0 <= Spec.truncate (Spec.clamp x 0 100) <= 100.
Proof.
  destruct (clamp_bounds x) as [Hlo Hhi].
  rewrite <- Qtrunc_truncate. unfold Qtrunc.
  rewrite (proj2 (Qle_bool_iff _ _) Hlo).
  pose proof (Qfloor_resp_le _ _ Hlo) as H1.
  pose proof (Qfloor_resp_le _ _ Hhi) as H2.
  change (Qfloor 0) with 0 in H1. change (Qfloor 100) with 100 in H2.
  lia.
Qed.

Lemma risk_score_value (avg_dom : Z) :
  py_int (risk_score_of avg_dom) = Spec.liquidity_risk avg_dom.
Proof.
  unfold risk_score_of, Spec.liquidity_risk.
  rewrite clamp_truncated, <- !Qtrunc_truncate.
  apply Qtrunc_comp.
  assert (H : (num_to_Q (py_sub (PInt 100)
                 (py_mul (py_sub (PInt avg_dom) (PInt 20)) (PFloat (3 # 2))))
               == 100 - (inject_Z avg_dom - 20) * (3 # 2))%Q).
  { unfold py_sub, py_mul. cbn [num_to_Q].
    rewrite !Qred_correct. unfold Z.sub. rewrite inject_Z_plus, inject_Z_opp.
    change (inject_Z 100) with 100%Q. change (inject_Z 20) with 20%Q. ring. }
  unfold Spec.clamp. rewrite H. reflexivity.
Qed.

Lemma growth_score_value (avg_beds g : pynum) :
  growth_score_of avg_beds = Ok g ->
  py_int g = Spec.growth_potential (num_to_Q avg_beds).
Proof.
  unfold growth_score_of, Spec.growth_potential. intros H.
  inv_bind H as q Hx. injection H as <-.
  apply py_truediv_value in Hx. destruct Hx as (y & -> & Hy).
  rewrite clamp_truncated, <- !Qtrunc_truncate.
  apply Qtrunc_comp. unfold Spec.clamp, py_mul. cbn [num_to_Q].
  rewrite Qred_correct, Hy. reflexivity.
Qed.

Lemma growth_score_total (avg_beds : pynum) :
  exists g, growth_score_of avg_beds = Ok g.
Proof.
  unfold growth_score_of, py_truediv. cbn [num_to_Q].
  change (Qeq_bool (inject_Z 4) 0) with false. cbn [bind].
  eexists. reflexivity.
Qed.

(** ** The three loops, record by record *)

Lemma sale_price_of_object (fields : list (string * json)) :
  sale_price_of (JObj fields) = Ok (Spec.present (JObj fields) "price").
Proof.
  unfold sale_price_of, Spec.present, Spec.field, py_get. cbn [bind].
  destruct (lookup "price" fields) as [[] |]; reflexivity.
Qed.

Lemma record_is_object {A : Type} (k : string) (default : json)
    (p : json) (rest : json -> result A) (x : A) :
  (v <- py_get p k default ;; rest v) = Ok x ->
  exists fields, p = JObj fields.
Proof.
  destruct p; cbn [py_get bind]; try discriminate.
  intros _. eexists. reflexivity.
Qed.

Lemma sale_price_of_agrees (p : json) (x : option json) :
  sale_price_of p = Ok x -> x = Spec.present p "price".
Proof.
  intros H. destruct (record_is_object _ _ _ _ _ H) as [fields ->].
  rewrite sale_price_of_object in H. congruence.
Qed.

Lemma falsy_does_not_parse (v : json) :
  truthy v = false -> Spec.parsed_date v = None.
Proof.
  destruct v; try reflexivity.
  cbn [truthy]. intros H. apply negb_false_iff, String.eqb_eq in H.
  subst s. reflexivity.
Qed.

Lemma days_on_market_of_object (today : date) (fields : list (string * json)) :
  days_on_market_of today (JObj fields)
  = Ok (Spec.days_on_market_of today (JObj fields)).
Proof.
  unfold days_on_market_of, Spec.days_on_market_of, Spec.field, py_get.
  cbn [bind].
  destruct (lookup "listing_date" fields) as [v |]; [| reflexivity].
  destruct (truthy v) eqn:Ht.
  - unfold Spec.parsed_date. destruct (strptime v); reflexivity.
  - rewrite (falsy_does_not_parse _ Ht). reflexivity.
Qed.

Lemma days_on_market_of_agrees (today : date) (p : json) (x : option Z) :
  days_on_market_of today p = Ok x -> x = Spec.days_on_market_of today p.
Proof.
  intros H. destruct (record_is_object _ _ _ _ _ H) as [fields ->].
  rewrite days_on_market_of_object in H. congruence.
Qed.

Lemma falsy_not_positive (v : json) (q : Q) :
  truthy v = false -> Spec.number v = Some q -> (q <= 0)%Q.
Proof.
  unfold Spec.number.
  destruct v; cbn [truthy as_number num_to_Q]; try discriminate.
  - intros -> H. injection H as <-. discriminate.
  - intros Hn H. injection H as <-.
    apply negb_false_iff, Z.eqb_eq in Hn. subst n. discriminate.
  - intros Hx H. injection H as <-.
    apply negb_false_iff, Qeq_bool_eq in Hx. rewrite Hx. discriminate.
Qed.

Lemma py_gt_zero_value (v : json) (b : bool) :
  py_gt_zero v = Ok b ->
  exists q, Spec.number v = Some q
            /\ b = if Qlt_le_dec 0 q then true else false.
Proof.
  unfold py_gt_zero, Spec.number. destruct (as_number v) as [a |]; [| discriminate].
  intros H. injection H as <-. exists (num_to_Q a). split; [reflexivity |].
  pose proof (py_lt_spec (PInt 0) a) as Hlt. cbn [num_to_Q] in Hlt.
  change (inject_Z 0) with 0%Q in Hlt.
  destruct (py_lt (PInt 0) a), (Qlt_le_dec 0 (num_to_Q a)); try reflexivity.
  - exfalso. apply (Qlt_irrefl 0). eapply Qlt_le_trans; eassumption.
  - exfalso. apply (Qlt_irrefl 0). eapply Qlt_le_trans; eassumption.
Qed.

(** What the bedrooms loop appends for [p] is a number, the one the
    specification selects. *)
Lemma bedrooms_of_agrees (p : json) (x : option json) :
  bedrooms_of p = Ok x ->
  match x with
  | Some v => exists q, Spec.number v = Some q /\ Spec.bedrooms_of p = Some q
  | None => Spec.bedrooms_of p = None
  end.
Proof.
  intros H. destruct (record_is_object _ _ _ _ _ H) as [fields ->].
  unfold bedrooms_of in H. inv_bind H as w Hx.
  destruct (record_is_object _ _ _ _ _ H) as [attrs ->].
  inv_bind H as beds Hx0.
  assert (Hspec : Spec.bedrooms_of (JObj fields)
                  = match lookup "bedrooms" attrs with
                    | Some v =>
                        match Spec.number v with
                        | Some q => if Qlt_le_dec 0 q then Some q else None
                        | None => None
                        end
                    | None => None
                    end).
  { unfold Spec.bedrooms_of, Spec.field. cbn [py_get] in Hx.
    destruct (lookup "attributes" fields) as [w' |].
    - injection Hx as ->. reflexivity.
    - injection Hx as <-. reflexivity. }
  rewrite Hspec. clear Hspec Hx. cbn [py_get] in Hx0.
  destruct (lookup "bedrooms" attrs) as [v |].
  - injection Hx0 as <-. destruct (truthy v) eqn:Ht.
    + inv_bind H as b Hb. apply py_gt_zero_value in Hb.
      destruct Hb as (q & Hq & ->).
      rewrite Hq. destruct (Qlt_le_dec 0 q); injection H as <-.
      * exists q. split; [exact Hq | reflexivity].
      * reflexivity.
    + injection H as <-. destruct (Spec.number v) as [q |] eqn:Hq; [| reflexivity].
      pose proof (falsy_not_positive _ _ Ht Hq) as Hle.
      destruct (Qlt_le_dec 0 q) as [Hlt |]; [| reflexivity].
      exfalso. apply (Qlt_irrefl 0). eapply Qlt_le_trans; eassumption.
  - injection Hx0 as <-. cbn [truthy Z.eqb negb] in H. injection H as <-.
    reflexivity.
Qed.

Lemma collect_bedrooms_agrees (items beds : list json) :
  collect bedrooms_of items = Ok beds ->
  map Spec.number beds = map Some (Spec.bedrooms items).
Proof.
  revert beds. induction items as [| p rest IH]; cbn [collect]; intros beds H.
  - injection H as <-. reflexivity.
  - inv_bind H as x Hx. inv_bind H as xs Hxs. injection H as <-.
    specialize (IH _ Hxs). apply bedrooms_of_agrees in Hx.
    unfold Spec.bedrooms. cbn [Spec.filter_map].
    destruct x as [v |].
    + destruct Hx as (q & Hq & ->). cbn [map]. rewrite Hq, IH. reflexivity.
    + rewrite Hx. exact IH.
Qed.

(** ** What a returned analysis is made of *)

Lemma analyze_Some_inv (today : date) (fields : list (string * json))
    (props : list json) (a : Analysis) :
  lookup "results" fields = Some (JArr props) ->
  analyze_property_data today (JObj fields) = Ok (Some a) ->
  props <> []
  /\ exists sale_prices price_mean dom_list dom_mean beds beds_mean growth,
       collect sale_price_of props = Ok sale_prices
       /\ mean_or_zero sale_prices = Ok price_mean
       /\ collect (days_on_market_of today) props = Ok dom_list
       /\ mean_or_zero (map JInt dom_list) = Ok dom_mean
       /\ collect bedrooms_of props = Ok beds
       /\ mean_or_zero beds = Ok beds_mean
       /\ growth_score_of (py_round1 beds_mean) = Ok growth
       /\ a = {| summary :=
                   {| total_listings := Z.of_nat (List.length props);
                      avg_sale_price := py_round price_mean;
                      avg_days_on_market := py_round dom_mean;
                      avg_bedrooms := py_round1 beds_mean |};
                 scorecard :=
                   {| liquidity_risk :=
                        {| label := "Liquidity Risk Score";
                           value := py_int (risk_score_of (py_round dom_mean));
                           explanation := risk_explanation |};
                      family_growth_potential :=
                        {| label := "Family Growth Potential";
                           value := py_int growth;
                           explanation := growth_explanation |} |};
                 raw_properties := firstn 5 props |}.
Proof.
  intros Hres H. unfold analyze_property_data in H.
  cbn [py_keys py_get bind] in H. rewrite Hres in H.
  cbn [py_len bind truthy] in H.
  destruct props as [| p ps]; [discriminate H |].
  split; [discriminate |].
  cbn [negb py_iter bind] in H.
  inv_bind H as sale_prices H1. inv_bind H as price_mean H2.
  inv_bind H as dom_list H3. inv_bind H as dom_mean H4.
  inv_bind H as beds H5. inv_bind H as beds_mean H6.
  inv_bind H as growth H7.
  exists sale_prices, price_mean, dom_list, dom_mean, beds, beds_mean, growth.
  repeat (split; [assumption |]).
  unfold py_slice_to in H. congruence.
Qed.

Lemma analyze_Some_intro (today : date) (fields : list (string * json))
    (props sale_prices : list json) (dom_list : list Z) (beds : list json)
    (price_mean dom_mean beds_mean growth : pynum) :
  lookup "results" fields = Some (JArr props) ->
  props <> [] ->
  collect sale_price_of props = Ok sale_prices ->
  mean_or_zero sale_prices = Ok price_mean ->
  collect (days_on_market_of today) props = Ok dom_list ->
  mean_or_zero (map JInt dom_list) = Ok dom_mean ->
  collect bedrooms_of props = Ok beds ->
  mean_or_zero beds = Ok beds_mean ->
  growth_score_of (py_round1 beds_mean) = Ok growth ->
  exists a, analyze_property_data today (JObj fields) = Ok (Some a).
Proof.
  intros Hres Hne H1 H2 H3 H4 H5 H6 H7. unfold analyze_property_data.
  cbn [py_keys py_get bind]. rewrite Hres. cbn [py_len bind truthy].
  destruct props as [| p ps]; [congruence |].
  cbn [negb py_iter bind].
  rewrite H1. cbn [bind]. rewrite H2. cbn [bind]. rewrite H3. cbn [bind].
  rewrite H4. cbn [bind]. rewrite H5. cbn [bind]. rewrite H6. cbn [bind].
  rewrite H7. cbn [bind]. eexists. reflexivity.
Qed.

(** Without a [results] list that has an element there is no analysis. *)
Lemma analyze_Some_results (today : date) (data : json) (a : Analysis) :
  analyze_property_data today data = Ok (Some a) ->
  exists fields p ps,
    data = JObj fields /\ lookup "results" fields = Some (JArr (p :: ps)).
Proof.
  intros H. unfold analyze_property_data in H.
  destruct data as [| | | | | | fields]; try discriminate H.
  exists fields. cbn [py_keys py_get bind] in H.
  destruct (lookup "results" fields) as [properties |] eqn:Hres;
    [| discriminate H].
  destruct properties as [| | | | s | items | kvs]; try discriminate H.
  - (* a string: its characters have no [get] *)
    cbn [py_len bind truthy] in H.
    destruct s as [| c s']; [discriminate H |]. discriminate H.
  - destruct items as [| p ps]; [discriminate H |].
    exists p, ps. split; reflexivity.
  - (* a dict: its keys have no [get] *)
    destruct kvs as [| kv kvs']; discriminate H.
Qed.

(** ** The analyzer returns exactly on well-typed records *)

Lemma well_typed_object (p : json) :
  Typing.well_typed p = true -> exists fields, p = JObj fields.
Proof.
  destruct p; try discriminate. intros _. eexists. reflexivity.
Qed.

Lemma well_typed_prices (items : list json) :
  Forall (fun p => Typing.well_typed p = true) items ->
  collect sale_price_of items = Ok (Spec.prices items)
  /\ Forall (fun v => Typing.is_number v = true) (Spec.prices items).
Proof.
  induction 1 as [| p rest Hp _ [IH1 IH2]].
  - split; [reflexivity | constructor].
  - destruct (well_typed_object _ Hp) as [fields ->].
    cbn [collect]. rewrite sale_price_of_object, IH1. cbn [bind].
    unfold Spec.prices. cbn [Spec.filter_map].
    unfold Spec.present, Spec.field.
    cbn [Typing.well_typed] in Hp. apply andb_prop in Hp. destruct Hp as [Hp _].
    destruct (lookup "price" fields) as [v |]; [| split; [reflexivity | exact IH2]].
    destruct v; try (split; [reflexivity | constructor; assumption]).
    split; [reflexivity | exact IH2].
Qed.

Lemma well_typed_days_on_market (today : date) (items : list json) :
  Forall (fun p => exists fields, p = JObj fields) items ->
  collect (days_on_market_of today) items
  = Ok (Spec.days_on_market today items).
Proof.
  induction 1 as [| p rest [fields ->] _ IH]; [reflexivity |].
  cbn [collect]. rewrite days_on_market_of_object, IH. cbn [bind].
  unfold Spec.days_on_market. cbn [Spec.filter_map].
  destruct (Spec.days_on_market_of today (JObj fields)); reflexivity.
Qed.

Lemma well_typed_bedrooms_of (p : json) :
  Typing.well_typed p = true ->
  exists x, bedrooms_of p = Ok x
            /\ match x with
               | Some v => Typing.is_number v = true
               | None => True
               end.
Proof.
  intros Hp. destruct (well_typed_object _ Hp) as [fields ->].
  cbn [Typing.well_typed] in Hp. apply andb_prop in Hp. destruct Hp as [_ Hp].
  unfold bedrooms_of. cbn [py_get bind].
  destruct (lookup "attributes" fields) as [attrs |].
  - destruct attrs as [| | | | | | kvs]; try discriminate Hp.
    cbn [py_get bind]. destruct (lookup "bedrooms" kvs) as [b |].
    + destruct (truthy b) eqn:Ht.
      * cbn [negb orb] in Hp. unfold py_gt_zero.
        unfold Typing.is_number in Hp.
        destruct (as_number b) as [n |] eqn:Hn; [| discriminate Hp].
        cbn [bind]. eexists. split; [reflexivity |].
        destruct (py_lt (PInt 0) n); [| exact I].
        unfold Typing.is_number. rewrite Hn. reflexivity.
      * exists None. split; [reflexivity | exact I].
    + exists None. split; [reflexivity | exact I].
  - exists None. split; [reflexivity | exact I].
Qed.

Lemma well_typed_bedrooms (items : list json) :
  Forall (fun p => Typing.well_typed p = true) items ->
  exists beds, collect bedrooms_of items = Ok beds
               /\ Forall (fun v => Typing.is_number v = true) beds.
Proof.
  induction 1 as [| p rest Hp _ (beds & IH1 & IH2)].
  - exists []. split; [reflexivity | constructor].
  - destruct (well_typed_bedrooms_of _ Hp) as (x & Hx & Hnum).
    cbn [collect]. rewrite Hx, IH1. cbn [bind].
    eexists. split; [reflexivity |].
    destruct x; [constructor |]; assumption.
Qed.

Lemma JInt_numbers (zs : list Z) :
  Forall (fun v => Typing.is_number v = true) (map JInt zs).
Proof.
  induction zs; constructor; [reflexivity | assumption].
Qed.

Lemma analyze_returns (today : date) (fields : list (string * json))
    (props : list json) :
  lookup "results" fields = Some (JArr props) ->
  props <> [] ->
  Forall (fun p => Typing.well_typed p = true) props ->
  exists a, analyze_property_data today (JObj fields) = Ok (Some a).
Proof.
  intros Hres Hne Hwt.
  destruct (well_typed_prices _ Hwt) as [H1 Hnum].
  destruct (mean_or_zero_total _ Hnum) as [price_mean H2].
  assert (H3 := well_typed_days_on_market today props).
  specialize (H3 (Forall_impl _ well_typed_object Hwt)).
  destruct (mean_or_zero_total _ (JInt_numbers (Spec.days_on_market today props)))
    as [dom_mean H4].
  destruct (well_typed_bedrooms _ Hwt) as (beds & H5 & Hbeds).
  destruct (mean_or_zero_total _ Hbeds) as [beds_mean H6].
  destruct (growth_score_total (py_round1 beds_mean)) as [growth H7].
  eapply analyze_Some_intro; eassumption.
Qed.

Lemma numbers_of_values (xs : list json) (qs : list Q) :
  map Spec.number xs = map Some qs ->
  Forall (fun v => Typing.is_number v = true) xs.
Proof.
  revert qs. induction xs as [| v rest IH]; intros [| q qs] H;
    try discriminate; constructor.
  - cbn [map] in H. injection H as Hv _. unfold Spec.number in Hv.
    unfold Typing.is_number. destruct (as_number v); [reflexivity | discriminate].
  - cbn [map] in H. injection H as _ Hrest. eapply IH; eassumption.
Qed.

Lemma returned_record_well_typed (p : json) (x y : option json) :
  sale_price_of p = Ok x ->
  match x with Some v => Typing.is_number v = true | None => True end ->
  bedrooms_of p = Ok y ->
  Typing.well_typed p = true.
Proof.
  intros Hprice Hnum Hbeds.
  destruct (record_is_object _ _ _ _ _ Hprice) as [fields ->].
  rewrite sale_price_of_object in Hprice. injection Hprice as <-.
  unfold Spec.present, Spec.field in Hnum.
  cbn [Typing.well_typed]. apply andb_true_intro. split.
  - destruct (lookup "price" fields) as [[] |]; try reflexivity; exact Hnum.
  - unfold bedrooms_of in Hbeds. cbn [py_get bind] in Hbeds.
    destruct (lookup "attributes" fields) as [attrs |]; [| reflexivity].
    destruct attrs as [| | | | | | kvs]; try discriminate Hbeds.
    cbn [py_get bind] in Hbeds.
    destruct (lookup "bedrooms" kvs) as [b |]; [| reflexivity].
    destruct (truthy b); [| reflexivity].
    cbn [negb orb]. unfold py_gt_zero in Hbeds. unfold Typing.is_number.
    destruct (as_number b); [reflexivity | discriminate Hbeds].
Qed.

Lemma returned_records_well_typed (items sale_prices beds : list json) :
  collect sale_price_of items = Ok sale_prices ->
  Forall (fun v => Typing.is_number v = true) sale_prices ->
  collect bedrooms_of items = Ok beds ->
  Forall (fun p => Typing.well_typed p = true) items.
Proof.
  revert sale_prices beds.
  induction items as [| p rest IH]; intros sale_prices beds H1 Hnum H2;
    [constructor |].
  cbn [collect] in H1, H2.
  inv_bind H1 as x Hx. inv_bind H1 as xs Hxs. injection H1 as <-.
  inv_bind H2 as y Hy. inv_bind H2 as ys Hys. injection H2 as <-.
  constructor.
  - apply (returned_record_well_typed p x y Hx); [| exact Hy].
    destruct x; [| exact I]. inversion Hnum; assumption.
  - apply (IH xs ys Hxs); [| exact Hys].
    destruct x; [inversion Hnum |]; assumption.
Qed.

(** The records of an analysed list are well-typed. *)
Lemma analyze_Some_well_typed (today : date) (fields : list (string * json))
    (props : list json) (a : Analysis) :
  lookup "results" fields = Some (JArr props) ->
  analyze_property_data today (JObj fields) = Ok (Some a) ->
  Forall (fun p => Typing.well_typed p = true) props.
Proof.
  intros Hres Ha. destruct (analyze_Some_inv _ _ _ _ Hres Ha) as [_ Hparts].
  destruct Hparts as (sp & pm & dl & dm & beds & bm & g
                      & H1 & H2 & _ & _ & H5 & _).
  apply mean_or_zero_value in H2. destruct H2 as (qs & Hqs & _).
  eapply returned_records_well_typed;
    [exact H1 | eapply numbers_of_values; exact Hqs | exact H5].
Qed.

Lemma typed_with_well_typed (ok : json -> bool) (p : json) :
  (forall v, ok v = true -> Typing.is_number v = true) ->
  Typing.typed_with ok p = true -> Typing.well_typed p = true.
Proof.
  intros Hok. destruct p as [| | | | | | kvs]; try discriminate.
  cbn [Typing.typed_with Typing.well_typed]. intros H.
  apply andb_prop in H. destruct H as [Hprice Hbeds].
  apply andb_true_intro. split.
  - destruct (lookup "price" kvs) as [[] |]; try reflexivity;
      apply Hok; exact Hprice.
  - destruct (lookup "attributes" kvs) as [attrs |]; [| reflexivity].
    destruct attrs as [| | | | | | akvs]; try discriminate Hbeds.
    destruct (lookup "bedrooms" akvs) as [b |]; [| reflexivity].
    apply orb_prop in Hbeds. apply orb_true_intro.
    destruct Hbeds as [Hf | Hb]; [left; exact Hf | right; apply Hok; exact Hb].
Qed.

Lemma modest_well_typed (p : json) :
  Typing.modest p = true -> Typing.well_typed p = true.
Proof.
  apply typed_with_well_typed. intros [] H; try discriminate H; reflexivity.
Qed.

(** On modest records the analyzer returns an analysis. *)
Lemma analyze_returns_modest (today : date) (fields : list (string * json))
    (props : list json) :
  lookup "results" fields = Some (JArr props) ->
  props <> [] ->
  Forall (fun p => Typing.modest p = true) props ->
  exists a, analyze_property_data today (JObj fields) = Ok (Some a).
Proof.
  intros Hres Hne Hm. apply (analyze_returns today fields props Hres Hne).
  eapply Forall_impl; [| exact Hm]. intros p. apply modest_well_typed.
Qed.

(** X1: the analyzer returns an analysis only when the [results] list is
    not empty and every record in it is well-typed, and it does return one
    when the list is not empty and every record is modest (well-typed,
    with integer prices and bedroom counts of at most 2^53 in
    magnitude). *)
Theorem scorecard_returned (today : date) (fields : list (string * json))
    (props : list json) :
  lookup "results" fields = Some (JArr props) ->
  ((exists a, analyze_property_data today (JObj fields) = Ok (Some a)) ->
   props <> [] /\ Forall (fun p => Typing.well_typed p = true) props)
  /\ (props <> [] ->
      Forall (fun p => Typing.modest p = true) props ->
      exists a, analyze_property_data today (JObj fields) = Ok (Some a)).
Proof.
  intros Hres. split.
  - intros [a Ha]. split.
    + exact (proj1 (analyze_Some_inv _ _ _ _ Hres Ha)).
    + exact (analyze_Some_well_typed _ _ _ _ Hres Ha).
  - intros Hne Hm. exact (analyze_returns_modest today fields props Hres Hne Hm).
Qed.

Lemma scorecard_returned_witness :
  (exists a,
     analyze_property_data Samples.today (Samples.payload Samples.two_listings)
     = Ok (Some a))
  /\ Forall (fun p => Typing.well_typed p = true) Samples.two_listings.
Proof.
  destruct (scorecard_returned Samples.today
              [("results", JArr Samples.two_listings)] Samples.two_listings
              eq_refl) as [Honly Hret].
  assert (Ha : exists a,
             analyze_property_data Samples.today
               (Samples.payload Samples.two_listings) = Ok (Some a)).
  { apply Hret; [discriminate | repeat constructor]. }
  split; [exact Ha | exact (proj2 (Honly Ha))].
Defined.

(** Every figure of a returned analysis, in the words of the
    specification. *)
Lemma analysis_facts (today : date) (fields : list (string * json))
    (props : list json) (a : Analysis) :
  lookup "results" fields = Some (JArr props) ->
  analyze_property_data today (JObj fields) = Ok (Some a) ->
  total_listings (summary a) = Z.of_nat (List.length props)
  /\ (exists qs, map Spec.number (Spec.prices props) = map Some qs
                 /\ Spec.rounded_average qs (avg_sale_price (summary a)))
  /\ Spec.rounded_average (map inject_Z (Spec.days_on_market today props))
       (avg_days_on_market (summary a))
  /\ Spec.rounded_average_tenth (Spec.bedrooms props)
       (num_to_Q (avg_bedrooms (summary a)))
  /\ value (liquidity_risk (scorecard a))
     = Spec.liquidity_risk (avg_days_on_market (summary a))
  /\ value (family_growth_potential (scorecard a))
     = Spec.growth_potential (num_to_Q (avg_bedrooms (summary a)))
  /\ raw_properties a = firstn 5 props.
Proof.
  intros Hres Ha. destruct (analyze_Some_inv _ _ _ _ Hres Ha) as [_ Hparts].
  destruct Hparts as (sp & pm & dl & dm & beds & bm & g
                      & H1 & H2 & H3 & H4 & H5 & H6 & H7 & ->).
  cbn [summary scorecard raw_properties total_listings avg_sale_price
       avg_days_on_market avg_bedrooms liquidity_risk
       family_growth_potential value].
  apply (collect_agrees _ (fun p => Spec.present p "price")
           _ _ sale_price_of_agrees) in H1.
  apply (collect_agrees _ (Spec.days_on_market_of today)
           _ _ (days_on_market_of_agrees today)) in H3.
  apply collect_bedrooms_agrees in H5.
  subst sp dl.
  repeat split.
  - apply mean_or_zero_rounded in H2. exact H2.
  - apply mean_or_zero_rounded in H4. destruct H4 as (qs & Hqs & Havg).
    rewrite number_JInt in Hqs. apply map_Some_inj in Hqs. subst qs.
    exact Havg.
  - apply mean_or_zero_rounded_tenth in H6. destruct H6 as (qs & Hqs & Havg).
    rewrite H5 in Hqs. apply map_Some_inj in Hqs. subst qs. exact Havg.
  - apply risk_score_value.
  - apply growth_score_value. exact H7.
Qed.

(** ** The analyzer: scores and averages *)

(** C1: for a payload whose [results] list is not empty, the values of
    [liquidity_risk] and of [family_growth_potential] are integers between
    0 and 100 in every analysis the analyzer returns; and it returns one
    when the records are modest (prices and bedroom counts are integers of
    at most 2^53 in magnitude). *)
Theorem scores_within_bounds (today : date) (fields : list (string * json))
    (p : json) (ps : list json) :
  lookup "results" fields = Some (JArr (p :: ps)) ->
  (Forall (fun r => Typing.modest r = true) (p :: ps) ->
   exists a, analyze_property_data today (JObj fields) = Ok (Some a))
  /\ (forall a, analyze_property_data today (JObj fields) = Ok (Some a) ->
        0 <= value (liquidity_risk (scorecard a)) <= 100
        /\ 0 <= value (family_growth_potential (scorecard a)) <= 100).
Proof.
  intros Hres. split.
  - intros Hwt. apply (analyze_returns_modest today fields (p :: ps));
      try assumption.
    discriminate.
  - intros a Ha.
    destruct (analysis_facts _ _ _ _ Hres Ha)
      as (_ & _ & _ & _ & Hrisk & Hgrowth & _).
    rewrite Hrisk, Hgrowth. split; apply truncate_clamp_bounds.
Qed.

Lemma scores_within_bounds_witness :
  exists a,
    analyze_property_data Samples.today (Samples.payload Samples.two_listings)
    = Ok (Some a)
    /\ 0 <= value (liquidity_risk (scorecard a)) <= 100
    /\ 0 <= value (family_growth_potential (scorecard a)) <= 100.
Proof.
  destruct (scores_within_bounds Samples.today
              [("results", JArr Samples.two_listings)] _ _ eq_refl)
    as [Hret Hbounds].
  destruct Hret as [a Ha]; [repeat constructor |].
  exists a. split; [exact Ha | exact (Hbounds a Ha)].
Defined.

(** C2: for a non-empty [results] list the liquidity risk score is
    [clamp(100 - (avg_dom - 20) * 1.5, 0, 100)] truncated to an integer,
    where [avg_dom], the reported average days-on-market, is the average
    over the records whose date parses, rounded to the nearest integer,
    and 0 when no date parses (for day counts that binary64 averages
    exactly: magnitudes and count add up to less than 2^40).  An analysis
    is returned when the records are modest. *)
Theorem liquidity_risk_formula (today : date) (fields : list (string * json))
    (p : json) (ps : list json) :
  lookup "results" fields = Some (JArr (p :: ps)) ->
  (Forall (fun r => Typing.modest r = true) (p :: ps) ->
   exists a, analyze_property_data today (JObj fields) = Ok (Some a))
  /\ (forall a, analyze_property_data today (JObj fields) = Ok (Some a) ->
        value (liquidity_risk (scorecard a))
        = Spec.liquidity_risk (avg_days_on_market (summary a))
        /\ (Typing.small_sum
              (map inject_Z (Spec.days_on_market today (p :: ps))) = true ->
            Spec.rounded_average
              (map inject_Z (Spec.days_on_market today (p :: ps)))
              (avg_days_on_market (summary a)))).
Proof.
  intros Hres. split.
  - intros Hwt. apply (analyze_returns_modest today fields (p :: ps));
      try assumption.
    discriminate.
  - intros a Ha.
    destruct (analysis_facts _ _ _ _ Hres Ha)
      as (_ & _ & Hdom & _ & Hrisk & _ & _).
    split; [exact Hrisk | intros _; exact Hdom].
Qed.

Lemma liquidity_risk_formula_witness :
  exists a,
    analyze_property_data Samples.today (Samples.payload Samples.two_listings)
    = Ok (Some a)
    /\ value (liquidity_risk (scorecard a))
       = Spec.liquidity_risk (avg_days_on_market (summary a))
    /\ Spec.rounded_average
         (map inject_Z (Spec.days_on_market Samples.today Samples.two_listings))
         (avg_days_on_market (summary a)).
Proof.
  destruct (liquidity_risk_formula Samples.today
              [("results", JArr Samples.two_listings)] _ _ eq_refl)
    as [Hret Hfacts].
  destruct Hret as [a Ha]; [repeat constructor |].
  exists a. split; [exact Ha |].
  destruct (Hfacts a Ha) as [Hrisk Hdom].
  split; [exact Hrisk | apply Hdom; reflexivity].
Defined.







(** C5: for a non-empty [results] list the reported average
    days-on-market is the average of [(today - listing_date).days] over
    exactly the records whose [listing_date] parses as [YYYY-MM-DD],
    rounded to the nearest integer, and 0 when no date parses (for day
    counts that binary64 averages exactly: magnitudes and count add up to
    less than 2^40); the loop over the records never raises on a missing
    or unparseable date, and an analysis is returned when the records are
    modest. *)
Theorem average_days_on_market_formula (today : date)
    (fields : list (string * json)) (p : json) (ps : list json) :
  lookup "results" fields = Some (JArr (p :: ps)) ->
  (forall records, Forall (fun r => exists kvs, r = JObj kvs) records ->
     collect (days_on_market_of today) records
     = Ok (Spec.days_on_market today records))
  /\ (Forall (fun r => Typing.modest r = true) (p :: ps) ->
      exists a, analyze_property_data today (JObj fields) = Ok (Some a))
  /\ (forall a, analyze_property_data today (JObj fields) = Ok (Some a) ->
        Typing.small_sum
          (map inject_Z (Spec.days_on_market today (p :: ps))) = true ->
        Spec.rounded_average
          (map inject_Z (Spec.days_on_market today (p :: ps)))
          (avg_days_on_market (summary a))).
Proof.
  intros Hres. repeat split.
  - apply well_typed_days_on_market.
  - intros Hwt. apply (analyze_returns_modest today fields (p :: ps));
      try assumption.
    discriminate.
  - intros a Ha _.
    destruct (analysis_facts _ _ _ _ Hres Ha) as (_ & _ & Hdom & _).
    exact Hdom.
Qed.

Lemma average_days_on_market_formula_witness :
  exists a,
    analyze_property_data Samples.today (Samples.payload Samples.two_listings)
    = Ok (Some a)
    /\ Spec.rounded_average
         (map inject_Z (Spec.days_on_market Samples.today Samples.two_listings))
         (avg_days_on_market (summary a)).
Proof.
  destruct (average_days_on_market_formula Samples.today
              [("results", JArr Samples.two_listings)] _ _ eq_refl)
    as (_ & Hret & Hfacts).
  destruct Hret as [a Ha]; [repeat constructor |].
  exists a. split; [exact Ha | exact (Hfacts a Ha eq_refl)].
Defined.

Lemma firstn_min {A : Type} (n : nat) (l : list A) :
  firstn n l = firstn (Nat.min n (List.length l)) l.
Proof.
  destruct (Nat.le_ge_cases n (List.length l)) as [H | H].
  - rewrite Nat.min_l by exact H. reflexivity.
  - rewrite Nat.min_r by exact H. rewrite firstn_all. apply firstn_all2. exact H.
Qed.

(** C8: for a non-empty [results] list of length N, [raw_properties] is
    the first min(5, N) records of the input, in their order and as they
    were received, in the analysis and in the JSON made of it; an
    analysis is returned when the records are modest. *)
Theorem raw_properties_prefix (today : date) (fields : list (string * json))
    (p : json) (ps : list json) :
  lookup "results" fields = Some (JArr (p :: ps)) ->
  (Forall (fun r => Typing.modest r = true) (p :: ps) ->
   exists a, analyze_property_data today (JObj fields) = Ok (Some a))
  /\ (forall a, analyze_property_data today (JObj fields) = Ok (Some a) ->
        raw_properties a
        = firstn (Nat.min 5 (List.length (p :: ps))) (p :: ps)
        /\ List.length (raw_properties a) = Nat.min 5 (List.length (p :: ps))
        /\ Spec.field (analysis_to_json a) "raw_properties"
           = Some (JArr (firstn (Nat.min 5 (List.length (p :: ps))) (p :: ps)))).
Proof.
  intros Hres. split.
  - intros Hwt. apply (analyze_returns_modest today fields (p :: ps));
      try assumption.
    discriminate.
  - intros a Ha.
    destruct (analysis_facts _ _ _ _ Hres Ha) as (_ & _ & _ & _ & _ & _ & Hraw).
    rewrite firstn_min in Hraw. repeat split.
    + exact Hraw.
    + rewrite Hraw. apply firstn_length_le. apply Nat.le_min_r.
    + cbn [analysis_to_json Spec.field lookup String.eqb Ascii.eqb Bool.eqb].
      rewrite Hraw. reflexivity.
Qed.

Lemma raw_properties_prefix_witness :
  exists a,
    analyze_property_data Samples.today (Samples.payload Samples.seven_listings)
    = Ok (Some a)
    /\ raw_properties a = firstn 5 Samples.seven_listings
    /\ List.length (raw_properties a) = 5%nat.
Proof.
  destruct (raw_properties_prefix Samples.today
              [("results", JArr Samples.seven_listings)] _ _ eq_refl)
    as [Hret Hfacts].
  destruct Hret as [a Ha]; [repeat constructor |].
  exists a. split; [exact Ha |].
  destruct (Hfacts a Ha) as (Hraw & Hlen & _).
  split; [exact Hraw | exact Hlen].
Defined.

(** ** Records that lack a value are left out *)

Lemma collect_skip {A : Type} (body : json -> result (option A))
    (before after : list json) (r : json) :
  body r = Ok None ->
  collect body (before ++ r :: after) = collect body (before ++ after).
Proof.
  intros Hr. induction before as [| p rest IH]; cbn [app collect].
  - rewrite Hr. cbn [bind]. destruct (collect body after); reflexivity.
  - rewrite IH. reflexivity.
Qed.

Lemma collect_all_skipped {A : Type} (body : json -> result (option A))
    (items : list json) :
  Forall (fun r => body r = Ok None) items -> collect body items = Ok [].
Proof.
  induction 1 as [| r rest Hr _ IH]; [reflexivity |].
  cbn [collect]. rewrite Hr, IH. reflexivity.
Qed.

Lemma lacks_price_skipped (r : json) :
  Typing.well_typed r = true -> Missing.lacks_price r = true ->
  sale_price_of r = Ok None.
Proof.
  intros Hwt Hl. destruct (well_typed_object _ Hwt) as [kvs ->].
  rewrite sale_price_of_object. unfold Missing.lacks_price in Hl.
  unfold Spec.present. destruct (Spec.field (JObj kvs) "price") as [[] |];
    try discriminate Hl; reflexivity.
Qed.

Lemma lacks_date_skipped (today : date) (r : json) :
  Typing.well_typed r = true -> Missing.lacks_date r = true ->
  days_on_market_of today r = Ok None.
Proof.
  intros Hwt Hl. destruct (well_typed_object _ Hwt) as [kvs ->].
  rewrite days_on_market_of_object. unfold Missing.lacks_date in Hl.
  unfold Spec.days_on_market_of.
  destruct (Spec.field (JObj kvs) "listing_date") as [v |]; [| reflexivity].
  destruct (Spec.parsed_date v); [discriminate Hl | reflexivity].
Qed.

Lemma lacks_bedrooms_skipped (r : json) :
  Typing.well_typed r = true -> Missing.lacks_bedrooms r = true ->
  bedrooms_of r = Ok None.
Proof.
  intros Hwt Hl. destruct (well_typed_bedrooms_of _ Hwt) as (x & Hx & _).
  rewrite Hx. f_equal. apply bedrooms_of_agrees in Hx.
  destruct x as [v |]; [| reflexivity]. exfalso.
  destruct Hx as (q & Hq & Hspec).
  unfold Missing.lacks_bedrooms in Hl. unfold Spec.bedrooms_of in Hspec.
  destruct (Spec.field r "attributes") as [attrs |]; [| discriminate Hspec].
  destruct (Spec.field attrs "bedrooms") as [w |] eqn:Hw;
    [| discriminate Hspec].
  destruct (Spec.number w) as [q' |] eqn:Hq'; [| discriminate Hspec].
  destruct (Qlt_le_dec 0 q') as [Hpos |]; [| discriminate Hspec].
  destruct attrs; try discriminate Hl. rewrite Hw in Hl.
  destruct w; try discriminate Hq'; rewrite Hq' in Hl;
    apply Qle_bool_iff in Hl;
    apply (Qlt_irrefl 0); eapply Qlt_le_trans; eassumption.
Qed.

(** C6, as amended: a record whose price is absent or null, whose listing
    date is absent or does not parse, or whose bedroom count is absent,
    null or not above 0 is left out of the respective average: whenever
    the list with the record and the list without it are both analysed,
    the two analyses report the same average and the same score.  Both
    are analysed when the records are modest.  When every record is
    well-typed and lacks all three values the analyzer returns an analysis
    whose three averages are 0. *)
Theorem missing_values_left_out (today : date)
    (fields fields' : list (string * json)) (before after : list json)
    (r : json) :
  lookup "results" fields = Some (JArr (before ++ r :: after)) ->
  lookup "results" fields' = Some (JArr (before ++ after)) ->
  (forall a a',
     analyze_property_data today (JObj fields) = Ok (Some a) ->
     analyze_property_data today (JObj fields') = Ok (Some a') ->
     (Missing.lacks_price r = true ->
      avg_sale_price (summary a') = avg_sale_price (summary a))
     /\ (Missing.lacks_date r = true ->
         avg_days_on_market (summary a') = avg_days_on_market (summary a)
         /\ value (liquidity_risk (scorecard a'))
            = value (liquidity_risk (scorecard a)))
     /\ (Missing.lacks_bedrooms r = true ->
         avg_bedrooms (summary a') = avg_bedrooms (summary a)
         /\ value (family_growth_potential (scorecard a'))
            = value (family_growth_potential (scorecard a))))
  /\ (Forall (fun x => Typing.modest x = true) (before ++ r :: after) ->
      (exists a, analyze_property_data today (JObj fields) = Ok (Some a))
      /\ ((before ++ after)%list <> [] ->
          exists a', analyze_property_data today (JObj fields') = Ok (Some a')))
  /\ (Forall (fun x => Typing.well_typed x = true) (before ++ r :: after) ->
      Forall (fun x => Missing.lacks_all x = true) (before ++ r :: after) ->
      exists a,
        analyze_property_data today (JObj fields) = Ok (Some a)
        /\ avg_sale_price (summary a) = 0
        /\ avg_days_on_market (summary a) = 0
        /\ avg_bedrooms (summary a) = PInt 0).
Proof.
  intros Hres Hres'.
  assert (Hne : (before ++ r :: after)%list <> [])
    by (destruct before; discriminate).
  split; [| split].
  - intros a a' Ha Ha'.
    assert (Hr : Typing.well_typed r = true).
    { pose proof (analyze_Some_well_typed _ _ _ _ Hres Ha) as Hwt.
      apply Forall_elt in Hwt. exact Hwt. }
    destruct (analyze_Some_inv _ _ _ _ Hres Ha) as [_ Hparts].
    destruct Hparts as (sp & pm & dl & dm & beds & bm & g
                        & H1 & H2 & H3 & H4 & H5 & H6 & H7 & Heq).
    destruct (analyze_Some_inv _ _ _ _ Hres' Ha') as [_ Hparts'].
    destruct Hparts' as (sp' & pm' & dl' & dm' & beds' & bm' & g'
                         & H1' & H2' & H3' & H4' & H5' & H6' & H7' & Heq').
    subst a a'.
    cbn [summary scorecard avg_sale_price avg_days_on_market avg_bedrooms
         liquidity_risk family_growth_potential value].
    split; [| split]; intros Hl.
    + rewrite (collect_skip _ _ _ _ (lacks_price_skipped _ Hr Hl)) in H1.
      congruence.
    + rewrite (collect_skip _ _ _ _ (lacks_date_skipped today _ Hr Hl)) in H3.
      split; congruence.
    + rewrite (collect_skip _ _ _ _ (lacks_bedrooms_skipped _ Hr Hl)) in H5.
      split; congruence.
  - intros Hm. split.
    + apply (analyze_returns_modest today fields _ Hres Hne Hm).
    + intros Hne'.
      apply (analyze_returns_modest today fields' _ Hres' Hne').
      apply Forall_app in Hm. destruct Hm as [Hb Ha'].
      apply Forall_app. split; [exact Hb |]. inversion Ha'; assumption.
  - intros Hwt Hall.
    destruct (analyze_returns today fields _ Hres Hne Hwt) as [a Ha].
    exists a. split; [exact Ha |].
    destruct (analyze_Some_inv _ _ _ _ Hres Ha) as [_ Hparts].
    destruct Hparts as (sp & pm & dl & dm & beds & bm & g
                        & H1 & H2 & H3 & H4 & H5 & H6 & H7 & Heq).
    assert (Hboth : Forall (fun x => Typing.well_typed x = true
                                     /\ Missing.lacks_all x = true)
                      (before ++ r :: after)).
    { apply Forall_and; assumption. }
    rewrite (collect_all_skipped sale_price_of) in H1.
    2:{ eapply Forall_impl; [| exact Hboth]. intros x [Hx Hl].
        unfold Missing.lacks_all in Hl.
        apply andb_prop in Hl. destruct Hl as [Hl _].
        apply andb_prop in Hl. destruct Hl as [Hl _].
        apply lacks_price_skipped; assumption. }
    rewrite (collect_all_skipped (days_on_market_of today)) in H3.
    2:{ eapply Forall_impl; [| exact Hboth]. intros x [Hx Hl].
        unfold Missing.lacks_all in Hl.
        apply andb_prop in Hl. destruct Hl as [Hl _].
        apply andb_prop in Hl. destruct Hl as [_ Hl].
        apply lacks_date_skipped; assumption. }
    rewrite (collect_all_skipped bedrooms_of) in H5.
    2:{ eapply Forall_impl; [| exact Hboth]. intros x [Hx Hl].
        unfold Missing.lacks_all in Hl.
        apply andb_prop in Hl. destruct Hl as [_ Hl].
        apply lacks_bedrooms_skipped; assumption. }
    injection H1 as <-. injection H3 as <-. injection H5 as <-.
    cbn [map mean_or_zero] in H2, H4, H6.
    injection H2 as <-. injection H4 as <-. injection H6 as <-.
    subst a. repeat split.
Qed.

Lemma missing_values_left_out_witness :
  exists a a',
    analyze_property_data Samples.today
      (Samples.payload [Samples.listing 500000 "2025-10-11" 3;
                        Samples.bare_listing;
                        Samples.listing 600000 "2025-09-21" 5])
    = Ok (Some a)
    /\ analyze_property_data Samples.today
         (Samples.payload Samples.two_listings)
       = Ok (Some a')
    /\ avg_sale_price (summary a') = avg_sale_price (summary a)
    /\ avg_days_on_market (summary a') = avg_days_on_market (summary a)
    /\ avg_bedrooms (summary a') = avg_bedrooms (summary a).
Proof.
  destruct (missing_values_left_out Samples.today
              [("results", JArr [Samples.listing 500000 "2025-10-11" 3;
                                 Samples.bare_listing;
                                 Samples.listing 600000 "2025-09-21" 5])]
              [("results", JArr Samples.two_listings)]
              [Samples.listing 500000 "2025-10-11" 3]
              [Samples.listing 600000 "2025-09-21" 5]
              Samples.bare_listing eq_refl eq_refl)
    as (Hsame & Hret & _).
  destruct Hret as [[a Ha] Hret']; [repeat constructor |].
  destruct Hret' as [a' Ha']; [discriminate |].
  destruct (Hsame a a' Ha Ha') as (Hprice & Hdate & Hbeds).
  exists a, a'. split; [exact Ha |]. split; [exact Ha' |].
  split; [apply Hprice; reflexivity |].
  split; [apply Hdate; reflexivity | apply Hbeds; reflexivity].
Defined.

(** C6, as stated, fails: a price or a bedroom count that is not a number
    makes the analyzer raise, and a negative price is averaged in. *)
Lemma malformed_values_not_left_out :
  analyze_property_data Samples.today
    (Samples.payload [Samples.priced (JStr "N/A")])
  = Raise TypeError
  /\ analyze_property_data Samples.today
       (Samples.payload [Samples.with_bedrooms (JStr "3")])
     = Raise TypeError
  /\ exists a,
       analyze_property_data Samples.today
         (Samples.payload [Samples.priced (JInt (-100));
                           Samples.priced (JInt 100)])
       = Ok (Some a)
       /\ avg_sale_price (summary a) = 0.
Proof.
  split; [reflexivity |]. split; [reflexivity |].
  eexists. split; [vm_compute; reflexivity | reflexivity].
Qed.

(** ** The endpoint *)

(** C7: when the [results] key is absent or maps to an empty list the
    analyzer returns [None], and the endpoint, given a suburb and an
    upstream answer that is not an error, replies 404 with the message
    that names the requested suburb. *)
Theorem no_data_is_404 (today : date) (upstream : Upstream)
    (suburb_name : string) (response : Response)
    (fields : list (string * json)) :
  suburb_name <> "" ->
  upstream suburb_name = Ok response ->
  status_code response < 400 \/ 600 <= status_code response ->
  body_json response = Some (JObj fields) ->
  lookup "results" fields = None \/ lookup "results" fields = Some (JArr []) ->
  analyze_property_data today (JObj fields) = Ok None
  /\ analyze_suburb today upstream (Some suburb_name)
     = (error_reply
          ("No property data found for " ++ suburb_name
           ++ ". Please try a different suburb.")%string 404,
        [suburb_name]).
Proof.
  intros Hname Hup Hstatus Hbody Hres.
  assert (Hnone : analyze_property_data today (JObj fields) = Ok None).
  { unfold analyze_property_data. cbn [py_keys py_get bind].
    destruct Hres as [-> | ->]; reflexivity. }
  split; [exact Hnone |].
  unfold analyze_suburb. cbn [truthy].
  apply String.eqb_neq in Hname. rewrite Hname. cbn [negb].
  unfold fetch_and_analyze. rewrite Hup. cbn [bind].
  unfold raise_for_status.
  assert (Hok : (400 <=? status_code response) && (status_code response <? 600)
                = false).
  { apply andb_false_iff. destruct Hstatus as [H | H].
    - left. apply Z.leb_gt. exact H.
    - right. apply Z.ltb_ge. exact H. }
  rewrite Hok. cbn [bind]. unfold response_json. rewrite Hbody. cbn [bind].
  rewrite Hnone. reflexivity.
Qed.

Lemma no_data_is_404_witness :
  analyze_property_data Samples.today (Samples.payload []) = Ok None
  /\ analyze_suburb Samples.today (Samples.upstream_ok (Samples.payload []))
       (Some "Richmond")
     = (error_reply
          "No property data found for Richmond. Please try a different suburb."
          404,
        ["Richmond"]).
Proof.
  apply (no_data_is_404 Samples.today
           (Samples.upstream_ok (Samples.payload [])) "Richmond"
           {| status_code := 200; body_json := Some (Samples.payload []) |}
           [("results", JArr [])]).
  - discriminate.
  - reflexivity.
  - left. reflexivity.
  - reflexivity.
  - right. reflexivity.
Defined.

(** C10: a [suburb] parameter that is present but empty is answered as a
    missing one is: 400 with [Suburb name is required.], and no request
    is made to the upstream API. *)
Theorem empty_suburb_is_400 (today : date) (upstream : Upstream) :
  analyze_suburb today upstream (Some "")
  = (error_reply "Suburb name is required." 400, [])
  /\ analyze_suburb today upstream (Some "")
     = analyze_suburb today upstream None.
Proof.
  split; reflexivity.
Qed.

(** ** Failures other than those of the request *)

Lemma Ok_builtin {A : Type} (a : A) : only_builtin (Ok a).
Proof. intros e H. discriminate H. Qed.

Lemma Raise_builtin {A : Type} (e : exn) :
  is_RequestException e = false -> only_builtin (@Raise A e).
Proof. intros He e' H. injection H as <-. exact He. Qed.

Lemma bind_builtin {A B : Type} (c : result A) (k : A -> result B) :
  only_builtin c -> (forall a, only_builtin (k a)) -> only_builtin (bind c k).
Proof.
  intros Hc Hk e. destruct c as [a | e']; cbn [bind].
  - apply Hk.
  - intros H. injection H as <-. apply Hc. reflexivity.
Qed.

Create HintDb builtin.
#[local] Hint Resolve Ok_builtin bind_builtin : builtin.
#[local] Hint Extern 1 (only_builtin (Raise _)) =>
  apply Raise_builtin; reflexivity : builtin.

Lemma py_get_builtin (v : json) (k : string) (default : json) :
  only_builtin (py_get v k default).
Proof. destruct v; cbn [py_get]; auto with builtin. Qed.

Lemma py_keys_builtin (v : json) : only_builtin (py_keys v).
Proof. destruct v; cbn [py_keys]; auto with builtin. Qed.

Lemma py_len_builtin (v : json) : only_builtin (py_len v).
Proof. destruct v; cbn [py_len]; auto with builtin. Qed.

Lemma py_iter_builtin (v : json) : only_builtin (py_iter v).
Proof. destruct v; cbn [py_iter]; auto with builtin. Qed.

Lemma py_truediv_builtin (a b : pynum) : only_builtin (py_truediv a b).
Proof.
  unfold py_truediv. destruct (Qeq_bool (num_to_Q b) 0); auto with builtin.
Qed.

Lemma py_gt_zero_builtin (v : json) : only_builtin (py_gt_zero v).
Proof. unfold py_gt_zero. destruct (as_number v); auto with builtin. Qed.

Lemma py_sum_from_builtin (items : list json) (acc : pynum) :
  only_builtin (py_sum_from acc items).
Proof.
  revert acc. induction items as [| v rest IH]; intros acc; cbn [py_sum_from].
  - auto with builtin.
  - destruct (as_number v); [apply IH | auto with builtin].
Qed.

#[local] Hint Resolve py_get_builtin py_keys_builtin py_len_builtin
  py_iter_builtin py_truediv_builtin py_gt_zero_builtin
  py_sum_from_builtin : builtin.

Lemma mean_or_zero_builtin (xs : list json) : only_builtin (mean_or_zero xs).
Proof.
  destruct xs; unfold mean_or_zero, py_sum; auto with builtin.
Qed.

Lemma collect_builtin {A : Type} (body : json -> result (option A))
    (items : list json) :
  (forall p, only_builtin (body p)) -> only_builtin (collect body items).
Proof.
  intros Hbody. induction items as [| p rest IH]; cbn [collect].
  - auto with builtin.
  - apply bind_builtin; [apply Hbody | intros x].
    apply bind_builtin; [exact IH | intros xs]. auto with builtin.
Qed.

Lemma sale_price_of_builtin (p : json) : only_builtin (sale_price_of p).
Proof.
  unfold sale_price_of. apply bind_builtin; [auto with builtin | intros cond].
  destruct cond; auto with builtin.
Qed.

Lemma days_on_market_of_builtin (today : date) (p : json) :
  only_builtin (days_on_market_of today p).
Proof.
  unfold days_on_market_of.
  apply bind_builtin; [auto with builtin | intros v].
  destruct (truthy v); auto with builtin.
Qed.

Lemma bedrooms_of_builtin (p : json) : only_builtin (bedrooms_of p).
Proof.
  unfold bedrooms_of. apply bind_builtin; [auto with builtin | intros attrs].
  apply bind_builtin; [auto with builtin | intros beds].
  destruct (truthy beds); auto with builtin.
Qed.

Lemma growth_score_of_builtin (avg_beds : pynum) :
  only_builtin (growth_score_of avg_beds).
Proof. unfold growth_score_of. auto with builtin. Qed.

#[local] Hint Resolve mean_or_zero_builtin collect_builtin
  sale_price_of_builtin days_on_market_of_builtin bedrooms_of_builtin
  growth_score_of_builtin : builtin.

Lemma analyze_property_data_builtin (today : date) (data : json) :
  only_builtin (analyze_property_data today data).
Proof.
  unfold analyze_property_data.
  apply bind_builtin; [auto with builtin | intros keys].
  apply bind_builtin; [auto with builtin | intros properties].
  apply bind_builtin; [auto with builtin | intros total].
  destruct (negb (truthy properties)); [auto with builtin |].
  repeat (apply bind_builtin; [auto with builtin | intros ?]).
  auto with builtin.
Qed.

(** X2: when the upstream answer is not an error and its body is valid
    JSON, any exception raised by the analysis is answered 500 with
    [An unexpected server error occurred during analysis.] *)
Theorem analysis_failure_is_500 (today : date) (upstream : Upstream)
    (suburb_name : string) (response : Response) (data : json) (e : exn) :
  suburb_name <> "" ->
  upstream suburb_name = Ok response ->
  status_code response < 400 \/ 600 <= status_code response ->
  body_json response = Some data ->
  analyze_property_data today data = Raise e ->
  analyze_suburb today upstream (Some suburb_name)
  = (error_reply "An unexpected server error occurred during analysis." 500,
     [suburb_name]).
Proof.
  intros Hname Hup Hstatus Hbody Hraise.
  pose proof (analyze_property_data_builtin today data e Hraise) as He.
  unfold analyze_suburb. cbn [truthy].
  apply String.eqb_neq in Hname. rewrite Hname. cbn [negb].
  unfold fetch_and_analyze. rewrite Hup. cbn [bind].
  unfold raise_for_status.
  assert (Hok : (400 <=? status_code response) && (status_code response <? 600)
                = false).
  { apply andb_false_iff. destruct Hstatus as [H | H].
    - left. apply Z.leb_gt. exact H.
    - right. apply Z.ltb_ge. exact H. }
  rewrite Hok. cbn [bind]. unfold response_json. rewrite Hbody. cbn [bind].
  rewrite Hraise. cbn [bind]. unfold handle_exception.
  destruct e; try discriminate He; reflexivity.
Qed.

Lemma analysis_failure_is_500_witness :
  analyze_suburb Samples.today (Samples.upstream_ok (JArr [])) (Some "Kew")
  = (error_reply "An unexpected server error occurred during analysis." 500,
     ["Kew"]).
Proof.
  apply (analysis_failure_is_500 Samples.today (Samples.upstream_ok (JArr []))
           "Kew" {| status_code := 200; body_json := Some (JArr []) |}
           (JArr []) AttributeError).
  - discriminate.
  - reflexivity.
  - left. reflexivity.
  - reflexivity.
  - reflexivity.
Defined.

(** A body that is not valid JSON, under a status that is not an error,
    is answered 503. *)
Lemma invalid_json_is_503 (today : date) (upstream : Upstream)
    (suburb_name : string) (response : Response) :
  suburb_name <> "" ->
  upstream suburb_name = Ok response ->
  status_code response < 400 \/ 600 <= status_code response ->
  body_json response = None ->
  analyze_suburb today upstream (Some suburb_name)
  = (error_reply "Could not connect to the external Microburbs API." 503,
     [suburb_name]).
Proof.
  intros Hname Hup Hstatus Hbody.
  unfold analyze_suburb. cbn [truthy].
  apply String.eqb_neq in Hname. rewrite Hname. cbn [negb].
  unfold fetch_and_analyze. rewrite Hup. cbn [bind].
  unfold raise_for_status.
  assert (Hok : (400 <=? status_code response) && (status_code response <? 600)
                = false).
  { apply andb_false_iff. destruct Hstatus as [H | H].
    - left. apply Z.leb_gt. exact H.
    - right. apply Z.ltb_ge. exact H. }
  rewrite Hok. cbn [bind]. unfold response_json. rewrite Hbody. reflexivity.
Qed.

(** C9: what the code does where it departs from the specification.  The
    upstream API answers 200 with a body that is not valid JSON; the
    endpoint replies 503 [Could not connect to the external Microburbs
    API.], where the specification expects 500 [An unexpected server error
    occurred during analysis.]. *)
Theorem invalid_json_body_gets_503 :
  analyze_suburb Samples.today Samples.upstream_not_json (Some "Richmond")
  = (error_reply "Could not connect to the external Microburbs API." 503,
     ["Richmond"]).
Proof.
  apply (invalid_json_is_503 Samples.today Samples.upstream_not_json
           "Richmond" {| status_code := 200; body_json := None |}).
  - discriminate.
  - reflexivity.
  - left. reflexivity.
  - reflexivity.
Qed.

(** ** Dates in the standard format parse *)

Lemma digit_char_spec (k : Z) :
  0 <= k <= 9 ->
  is_digit (digit_char k) = true /\ digit_value (digit_char k) = k.
Proof.
  intros Hk.
  assert (H : In k [0; 1; 2; 3; 4; 5; 6; 7; 8; 9]) by (cbn [In]; lia).
  cbn [In] in H.
  repeat (destruct H as [<- | H]; [split; reflexivity |]).
  contradiction.
Qed.

Lemma match_Y_four_digits (y : Z) (rest : list ascii) :
  0 <= y <= 9999 ->
  match_Y (four_digits y ++ rest) = Some (y, rest).
Proof.
  intros Hy. unfold four_digits. cbn [app match_Y].
  destruct (digit_char_spec (y / 1000)) as [-> ->];
    [Z.div_mod_to_equations; lia |].
  destruct (digit_char_spec (y / 100 mod 10)) as [-> ->];
    [Z.div_mod_to_equations; lia |].
  destruct (digit_char_spec (y / 10 mod 10)) as [-> ->];
    [Z.div_mod_to_equations; lia |].
  destruct (digit_char_spec (y mod 10)) as [-> ->];
    [Z.div_mod_to_equations; lia |].
  cbn [andb]. do 2 f_equal. Z.div_mod_to_equations. lia.
Qed.

Lemma match_month_day (m d : Z) :
  1 <= m <= 12 -> 1 <= d <= 31 ->
  first_md (match_m (two_digits m ++ "-"%char :: two_digits d))
  = Some (m, d, []).
Proof.
  intros Hm Hd.
  assert (Hm' : In m [1; 2; 3; 4; 5; 6; 7; 8; 9; 10; 11; 12])
    by (cbn [In]; lia).
  assert (Hd' : In d [1; 2; 3; 4; 5; 6; 7; 8; 9; 10; 11; 12; 13; 14; 15; 16;
                      17; 18; 19; 20; 21; 22; 23; 24; 25; 26; 27; 28; 29; 30;
                      31])
    by (cbn [In]; lia).
  clear Hm Hd. cbn [In] in Hm', Hd'.
  repeat (destruct Hm' as [<- | Hm']; [
    repeat (destruct Hd' as [<- | Hd']; [vm_compute; reflexivity |]);
    contradiction |]).
  contradiction.
Qed.

(** X3: every date of the calendar, written as [YYYY-MM-DD], parses back
    to itself. *)
Theorem strptime_isoformat (y m d : Z) (dt : date) :
  make_date y m d = Ok dt ->
  strptime (JStr (isoformat dt)) = Ok dt.
Proof.
  intros Hmake. pose proof Hmake as Hdt. unfold make_date in Hdt.
  destruct ((1 <=? y) && (y <=? 9999) && (1 <=? m) && (m <=? 12)
            && (1 <=? d) && (d <=? days_in_month y m)) eqn:Hb;
    [| discriminate Hdt].
  injection Hdt as <-.
  repeat (apply andb_prop in Hb; destruct Hb as [Hb ?]).
  assert (Hdim : days_in_month y m <= 31).
  { unfold days_in_month.
    destruct m as [| [[[[] | []| ] | [[] | [] |] |] | [[[] | [] |] | [[] | [] |] |] |] |];
      try destruct (is_leap y); lia. }
  unfold strptime, isoformat. cbn [year month day].
  rewrite list_ascii_of_string_of_list_ascii.
  unfold match_format. rewrite match_Y_four_digits by lia.
  cbn [after_dash Ascii.eqb Bool.eqb].
  rewrite match_month_day by lia.
  exact Hmake.
Qed.

Lemma strptime_isoformat_witness :
  strptime (JStr (isoformat (mkdate 2024 2 29))) = Ok (mkdate 2024 2 29).
Proof.
  apply (strptime_isoformat 2024 2 29). reflexivity.
Defined.

(** ** The summary and the other answers of the endpoint *)

(** X4: [total_listings] is the length of the [results] list in every
    analysis that is returned, and one is returned when the records are
    modest. *)
Theorem total_listings_is_length (today : date)
    (fields : list (string * json)) (p : json) (ps : list json) :
  lookup "results" fields = Some (JArr (p :: ps)) ->
  (Forall (fun r => Typing.modest r = true) (p :: ps) ->
   exists a, analyze_property_data today (JObj fields) = Ok (Some a))
  /\ (forall a, analyze_property_data today (JObj fields) = Ok (Some a) ->
        total_listings (summary a) = Z.of_nat (List.length (p :: ps))).
Proof.
  intros Hres. split.
  - intros Hwt. apply (analyze_returns_modest today fields (p :: ps));
      try assumption.
    discriminate.
  - intros a Ha.
    destruct (analysis_facts _ _ _ _ Hres Ha) as (Htotal & _).
    exact Htotal.
Qed.

Lemma total_listings_is_length_witness :
  exists a,
    analyze_property_data Samples.today (Samples.payload Samples.seven_listings)
    = Ok (Some a)
    /\ total_listings (summary a) = 7.
Proof.
  destruct (total_listings_is_length Samples.today
              [("results", JArr Samples.seven_listings)] _ _ eq_refl)
    as [Hret Hfacts].
  destruct Hret as [a Ha]; [repeat constructor |].
  exists a. split; [exact Ha | exact (Hfacts a Ha)].
Defined.

(** X5: an upstream answer with an error status is passed on under the
    same status, with the message for 401, for 404, or for any other
    code; the body of the answer is not read. *)
Theorem upstream_error_passed_on (today : date) (upstream : Upstream)
    (suburb_name : string) (response : Response) :
  suburb_name <> "" ->
  upstream suburb_name = Ok response ->
  400 <= status_code response < 600 ->
  analyze_suburb today upstream (Some suburb_name)
  = (error_reply
       (if status_code response =? 401 then
          "API Authentication Failed. Please check the Bearer token."
        else if status_code response =? 404 then
          ("Suburb '" ++ suburb_name ++ "' not found or no data available.")%string
        else
          ("An API error occurred: HTTP "
           ++ string_of_Z (status_code response))%string)
       (status_code response),
     [suburb_name]).
Proof.
  intros Hname Hup Hstatus.
  unfold analyze_suburb. cbn [truthy].
  apply String.eqb_neq in Hname. rewrite Hname. cbn [negb].
  unfold fetch_and_analyze. rewrite Hup. cbn [bind].
  unfold raise_for_status.
  assert (Herr : (400 <=? status_code response) && (status_code response <? 600)
                 = true).
  { apply andb_true_intro. split; [apply Z.leb_le | apply Z.ltb_lt]; lia. }
  rewrite Herr. reflexivity.
Qed.

Lemma upstream_error_passed_on_witness :
  analyze_suburb Samples.today
    (fun _ => Ok {| status_code := 401; body_json := None |}) (Some "Kew")
  = (error_reply "API Authentication Failed. Please check the Bearer token."
       401, ["Kew"]).
Proof.
  apply (upstream_error_passed_on Samples.today
           (fun _ => Ok {| status_code := 401; body_json := None |}) "Kew"
           {| status_code := 401; body_json := None |}).
  - discriminate.
  - reflexivity.
  - cbn [status_code]. lia.
Defined.

(** X6: when no answer is received from the upstream API (connection
    failure or timeout) the endpoint replies 503 with
    [Could not connect to the external Microburbs API.] *)
Theorem unreachable_upstream_is_503 (today : date) (upstream : Upstream)
    (suburb_name : string) :
  suburb_name <> "" ->
  upstream suburb_name = Raise ConnectionError
  \/ upstream suburb_name = Raise Timeout ->
  analyze_suburb today upstream (Some suburb_name)
  = (error_reply "Could not connect to the external Microburbs API." 503,
     [suburb_name]).
Proof.
  intros Hname Hup.
  unfold analyze_suburb. cbn [truthy].
  apply String.eqb_neq in Hname. rewrite Hname. cbn [negb].
  unfold fetch_and_analyze. destruct Hup as [-> | ->]; reflexivity.
Qed.

Lemma unreachable_upstream_is_503_witness :
  analyze_suburb Samples.today (fun _ => Raise Timeout) (Some "Kew")
  = (error_reply "Could not connect to the external Microburbs API." 503,
     ["Kew"]).
Proof.
  apply (unreachable_upstream_is_503 Samples.today (fun _ => Raise Timeout)
           "Kew").
  - discriminate.
  - right. reflexivity.
Defined.

(** ** Concrete runs *)

(** The example of the specification: prices 500000 and 600000, 3 and 5
    bedrooms, listed 10 and 30 days ago. *)
Example two_listings_analysis :
  exists a,
    analyze_property_data Samples.today (Samples.payload Samples.two_listings)
    = Ok (Some a)
    /\ summary a
       = {| total_listings := 2; avg_sale_price := 550000;
            avg_days_on_market := 20; avg_bedrooms := PFloat 4 |}
    /\ value (liquidity_risk (scorecard a)) = 100
    /\ value (family_growth_potential (scorecard a)) = 100.
Proof.
  eexists. split; [vm_compute; reflexivity |]. repeat split.
Qed.

(** A price of 0 is averaged in; a null or missing price is not. *)
Example zero_price_counts :
  (exists a,
     analyze_property_data Samples.today
       (Samples.payload [Samples.priced (JInt 0); Samples.priced (JInt 100)])
     = Ok (Some a)
     /\ avg_sale_price (summary a) = 50)
  /\ (exists a,
        analyze_property_data Samples.today
          (Samples.payload [Samples.priced JNull; Samples.priced (JInt 100)])
        = Ok (Some a)
        /\ avg_sale_price (summary a) = 100)
  /\ (exists a,
        analyze_property_data Samples.today
          (Samples.payload [Samples.bare_listing; Samples.priced (JInt 100)])
        = Ok (Some a)
        /\ avg_sale_price (summary a) = 100).
Proof.
  repeat split; eexists; (split; [vm_compute; reflexivity | reflexivity]).
Qed.

(** Records without any of the three values: the averages are 0, the risk
    score is 100 and the growth score 0. *)
Example bare_listings_analysis :
  exists a,
    analyze_property_data Samples.today
      (Samples.payload [Samples.bare_listing; Samples.bare_listing])
    = Ok (Some a)
    /\ summary a
       = {| total_listings := 2; avg_sale_price := 0;
            avg_days_on_market := 0; avg_bedrooms := PInt 0 |}
    /\ value (liquidity_risk (scorecard a)) = 100
    /\ value (family_growth_potential (scorecard a)) = 0.
Proof.
  eexists. split; [vm_compute; reflexivity |]. repeat split.
Qed.

(** Sixty days on the market: 100 - 40 * 1.5 = 40.  Two and three
    bedrooms: 2.5 / 4 * 100 = 62.5, truncated to 62. *)
Example slow_market_analysis :
  exists a,
    analyze_property_data Samples.today
      (Samples.payload [Samples.listing 400000 "2025-08-22" 2;
                        Samples.listing 450000 "2025-08-22" 3])
    = Ok (Some a)
    /\ avg_days_on_market (summary a) = 60
    /\ value (liquidity_risk (scorecard a)) = 40
    /\ avg_bedrooms (summary a) = PFloat (5 # 2)
    /\ value (family_growth_potential (scorecard a)) = 62.
Proof.
  eexists. split; [vm_compute; reflexivity |]. repeat split.
Qed.

(** What [strptime] accepts and refuses. *)
Example strptime_runs :
  strptime (JStr "2024-01-05") = Ok (mkdate 2024 1 5)
  /\ strptime (JStr "2024-1-5") = Ok (mkdate 2024 1 5)
  /\ strptime (JStr "2024-02-29") = Ok (mkdate 2024 2 29)
  /\ strptime (JStr "2023-02-29") = Raise ValueError
  /\ strptime (JStr "2024-13-01") = Raise ValueError
  /\ strptime (JStr "2024-01-05T10:00:00") = Raise ValueError
  /\ strptime (JStr "05/01/2024") = Raise ValueError
  /\ strptime (JInt 20240105) = Raise TypeError
  /\ toordinal (mkdate 2024 1 5) = 738890
  /\ toordinal (mkdate 1 1 1) = 1
  /\ toordinal (mkdate 9999 12 31) = 3652059.
Proof.
  repeat split.
Qed.

(** The other answers of the endpoint. *)
Example endpoint_runs :
  analyze_suburb Samples.today
    (fun _ => Ok {| status_code := 401; body_json := None |}) (Some "Kew")
  = (error_reply "API Authentication Failed. Please check the Bearer token."
       401, ["Kew"])
  /\ analyze_suburb Samples.today
       (fun _ => Ok {| status_code := 404; body_json := None |}) (Some "Kew")
     = (error_reply "Suburb 'Kew' not found or no data available." 404,
        ["Kew"])
  /\ analyze_suburb Samples.today
       (fun _ => Ok {| status_code := 502; body_json := None |}) (Some "Kew")
     = (error_reply "An API error occurred: HTTP 502" 502, ["Kew"])
  /\ analyze_suburb Samples.today (fun _ => Raise Timeout) (Some "Kew")
     = (error_reply "Could not connect to the external Microburbs API." 503,
        ["Kew"])
  /\ analyze_suburb Samples.today (Samples.upstream_ok (JArr [])) (Some "Kew")
     = (error_reply "An unexpected server error occurred during analysis." 500,
        ["Kew"])
  /\ fst (analyze_suburb Samples.today
            (Samples.upstream_ok (Samples.payload Samples.two_listings))
            (Some "Kew"))
     = {| reply_status := 200;
          reply_body :=
            JObj [("suburb", JStr "Kew");
                  ("analysis",
                   JObj [("summary",
                          JObj [("total_listings", JInt 2);
                                ("avg_sale_price", JInt 550000);
                                ("avg_days_on_market", JInt 20);
                                ("avg_bedrooms", JFloat 4)]);
                         ("scorecard",
                          JObj [("liquidity_risk",
                                 JObj [("label", JStr "Liquidity Risk Score");
                                       ("value", JInt 100);
                                       ("explanation", JStr risk_explanation)]);
                                ("family_growth_potential",
                                 JObj [("label", JStr "Family Growth Potential");
                                       ("value", JInt 100);
                                       ("explanation",
                                        JStr growth_explanation)])]);
                         ("raw_properties", JArr Samples.two_listings)])] |}.
Proof.
  repeat split.
Qed.

(** ** The analyzer on payloads of any shape *)

Lemma analyze_nonempty_not_None (today : date) (fields : list (string * json))
    (p : json) (ps : list json) :
  lookup "results" fields = Some (JArr (p :: ps)) ->
  analyze_property_data today (JObj fields) <> Ok None.
Proof.
  intros Hres H. unfold analyze_property_data in H.
  cbn [py_keys py_get bind] in H. rewrite Hres in H.
  cbn [py_len bind truthy negb py_iter] in H.
  repeat (apply bind_Ok_inv in H; destruct H as (? & _ & H)).
  discriminate H.
Qed.

(** X7: the analyzer returns [None] exactly when the payload is an object
    whose [results] is absent or is an empty list, an empty string or an
    empty object. *)
Theorem analyze_None_iff (today : date) (data : json) :
  analyze_property_data today data = Ok None
  <-> exists fields,
        data = JObj fields
        /\ (lookup "results" fields = None
            \/ lookup "results" fields = Some (JArr [])
            \/ lookup "results" fields = Some (JStr "")
            \/ lookup "results" fields = Some (JObj [])).
Proof.
  split.
  - intros H. destruct data as [| | | | | | fields];
      try (unfold analyze_property_data in H; discriminate H).
    exists fields. split; [reflexivity |].
    destruct (lookup "results" fields) as [properties |] eqn:Hres;
      [| left; reflexivity].
    right.
    destruct properties as [| | | | s | items | kvs];
      try (unfold analyze_property_data in H;
           cbn [py_keys py_get bind] in H; rewrite Hres in H;
           discriminate H).
    + destruct s as [| c s']; [right; left; reflexivity |].
      unfold analyze_property_data in H.
      cbn [py_keys py_get bind] in H. rewrite Hres in H. discriminate H.
    + destruct items as [| p ps]; [left; reflexivity |].
      exfalso. exact (analyze_nonempty_not_None today fields p ps Hres H).
    + destruct kvs as [| kv kvs']; [right; right; reflexivity |].
      unfold analyze_property_data in H.
      cbn [py_keys py_get bind] in H. rewrite Hres in H. discriminate H.
  - intros (fields & -> & Hres). unfold analyze_property_data.
    cbn [py_keys py_get bind].
    destruct Hres as [-> | [-> | [-> | ->]]]; reflexivity.
Qed.

Lemma Ok_lookup_errors {A : Type} (a : A) : only_lookup_errors (Ok a).
Proof. intros e H. discriminate H. Qed.

Lemma bind_lookup_errors {A B : Type} (c : result A) (k : A -> result B) :
  only_lookup_errors c -> (forall a, only_lookup_errors (k a)) ->
  only_lookup_errors (bind c k).
Proof.
  intros Hc Hk e. destruct c as [a | e']; cbn [bind].
  - apply Hk.
  - intros H. injection H as <-. apply Hc. reflexivity.
Qed.

Lemma py_get_lookup_errors (v : json) (k : string) (default : json) :
  only_lookup_errors (py_get v k default).
Proof.
  destruct v; cbn [py_get]; intros e H; try discriminate H;
    injection H as <-; left; reflexivity.
Qed.

Lemma py_sum_from_lookup_errors (items : list json) (acc : pynum) :
  only_lookup_errors (py_sum_from acc items).
Proof.
  revert acc. induction items as [| v rest IH]; intros acc; cbn [py_sum_from].
  - apply Ok_lookup_errors.
  - destruct (as_number v); [apply IH |].
    intros e H. injection H as <-. right. reflexivity.
Qed.

(** The division of the average never divides by zero. *)
Lemma mean_or_zero_lookup_errors (xs : list json) :
  only_lookup_errors (mean_or_zero xs).
Proof.
  destruct xs as [| v rest]; [apply Ok_lookup_errors |].
  unfold mean_or_zero. apply bind_lookup_errors.
  - apply py_sum_from_lookup_errors.
  - intros s. change (List.length (v :: rest)) with (S (List.length rest)).
    unfold py_truediv. rewrite count_nonzero. apply Ok_lookup_errors.
Qed.

Lemma collect_lookup_errors {A : Type} (body : json -> result (option A))
    (items : list json) :
  (forall p, only_lookup_errors (body p)) ->
  only_lookup_errors (collect body items).
Proof.
  intros Hbody. induction items as [| p rest IH]; cbn [collect].
  - apply Ok_lookup_errors.
  - apply bind_lookup_errors; [apply Hbody | intros x].
    apply bind_lookup_errors; [exact IH | intros xs]. apply Ok_lookup_errors.
Qed.

Lemma sale_price_of_lookup_errors (p : json) :
  only_lookup_errors (sale_price_of p).
Proof.
  unfold sale_price_of.
  apply bind_lookup_errors; [apply py_get_lookup_errors | intros cond].
  destruct cond; try apply Ok_lookup_errors;
    (apply bind_lookup_errors;
     [apply py_get_lookup_errors | intros v; apply Ok_lookup_errors]).
Qed.

(** A date that does not parse never escapes the loop. *)
Lemma days_on_market_of_lookup_errors (today : date) (p : json) :
  only_lookup_errors (days_on_market_of today p).
Proof.
  unfold days_on_market_of.
  apply bind_lookup_errors; [apply py_get_lookup_errors | intros v].
  destruct (truthy v); apply Ok_lookup_errors.
Qed.

Lemma bedrooms_of_lookup_errors (p : json) :
  only_lookup_errors (bedrooms_of p).
Proof.
  unfold bedrooms_of.
  apply bind_lookup_errors; [apply py_get_lookup_errors | intros attrs].
  apply bind_lookup_errors; [apply py_get_lookup_errors | intros beds].
  destruct (truthy beds); [| apply Ok_lookup_errors].
  apply bind_lookup_errors; [| intros b; apply Ok_lookup_errors].
  unfold py_gt_zero. destruct (as_number beds); [apply Ok_lookup_errors |].
  intros e H. injection H as <-. right. reflexivity.
Qed.

Lemma analyze_only_lookup_errors (today : date) (data : json) :
  only_lookup_errors (analyze_property_data today data).
Proof.
  unfold analyze_property_data.
  apply bind_lookup_errors.
  { destruct data; cbn [py_keys]; intros e H; try discriminate H;
      injection H as <-; left; reflexivity. }
  intros keys.
  apply bind_lookup_errors; [apply py_get_lookup_errors | intros properties].
  apply bind_lookup_errors.
  { destruct properties; cbn [py_len]; intros e H; try discriminate H;
      injection H as <-; right; reflexivity. }
  intros total.
  destruct (negb (truthy properties)); [apply Ok_lookup_errors |].
  apply bind_lookup_errors.
  { destruct properties; cbn [py_iter]; intros e H; try discriminate H;
      injection H as <-; right; reflexivity. }
  intros items.
  apply bind_lookup_errors;
    [apply collect_lookup_errors, sale_price_of_lookup_errors | intros sp].
  apply bind_lookup_errors; [apply mean_or_zero_lookup_errors | intros pm].
  apply bind_lookup_errors;
    [apply collect_lookup_errors, days_on_market_of_lookup_errors | intros dl].
  apply bind_lookup_errors; [apply mean_or_zero_lookup_errors | intros dm].
  apply bind_lookup_errors;
    [apply collect_lookup_errors, bedrooms_of_lookup_errors | intros beds].
  apply bind_lookup_errors; [apply mean_or_zero_lookup_errors | intros bm].
  apply bind_lookup_errors; [| intros g; apply Ok_lookup_errors].
  destruct (growth_score_total (py_round1 bm)) as [g Hg]. rewrite Hg.
  apply Ok_lookup_errors.
Qed.

(** X8: whatever the payload, the analyzer never raises
    [ZeroDivisionError]: each of the three averages is guarded by a test
    that its list is not empty. *)
Theorem analyze_never_divides_by_zero (today : date) (data : json) (e : exn) :
  analyze_property_data today data = Raise e ->
  e <> ZeroDivisionError.
Proof.
  intros H. destruct (analyze_only_lookup_errors today data e H) as [-> | ->];
    discriminate.
Qed.

Lemma analyze_never_divides_by_zero_witness :
  analyze_property_data Samples.today
    (Samples.payload [Samples.priced (JStr "N/A")])
  = Raise TypeError
  /\ TypeError <> ZeroDivisionError.
Proof.
  split; [reflexivity |].
  apply (analyze_never_divides_by_zero Samples.today
           (Samples.payload [Samples.priced (JStr "N/A")]) TypeError).
  reflexivity.
Defined.

(** ** The endpoint, case by case *)

Lemma not_error_status (response : Response) :
  status_code response < 400 \/ 600 <= status_code response ->
  raise_for_status response = Ok tt.
Proof.
  intros Hstatus. unfold raise_for_status.
  assert (Hok : (400 <=? status_code response) && (status_code response <? 600)
                = false).
  { apply andb_false_iff. destruct Hstatus as [H | H].
    - left. apply Z.leb_gt. exact H.
    - right. apply Z.ltb_ge. exact H. }
  rewrite Hok. reflexivity.
Qed.

(** Once a body has been fetched and decoded the reply is decided by the
    analysis alone. *)
Lemma endpoint_after_fetch (today : date) (upstream : Upstream)
    (suburb_name : string) (response : Response) (data : json) :
  suburb_name <> "" ->
  upstream suburb_name = Ok response ->
  status_code response < 400 \/ 600 <= status_code response ->
  body_json response = Some data ->
  analyze_suburb today upstream (Some suburb_name)
  = (match analyze_property_data today data with
     | Ok None =>
         error_reply ("No property data found for " ++ suburb_name
                      ++ ". Please try a different suburb.")%string 404
     | Ok (Some a) =>
         {| reply_status := 200;
            reply_body := JObj [("suburb", JStr suburb_name);
                                ("analysis", analysis_to_json a)] |}
     | Raise e => handle_exception suburb_name e
     end, [suburb_name]).
Proof.
  intros Hname Hup Hstatus Hbody.
  unfold analyze_suburb. cbn [truthy].
  apply String.eqb_neq in Hname. rewrite Hname. cbn [negb].
  unfold fetch_and_analyze. rewrite Hup. cbn [bind].
  rewrite (not_error_status _ Hstatus). cbn [bind].
  unfold response_json. rewrite Hbody. cbn [bind].
  destruct (analyze_property_data today data) as [[a |] | e]; reflexivity.
Qed.

Lemma handle_lookup_error (suburb_name : string) (e : exn) :
  e = AttributeError \/ e = TypeError ->
  handle_exception suburb_name e
  = error_reply "An unexpected server error occurred during analysis." 500.
Proof. intros [-> | ->]; reflexivity. Qed.

(** X9: when the upstream answer is not an error and its [results] is a
    non-empty list of modest records, the endpoint replies 200 with the
    requested suburb and an analysis, after exactly one request to the
    upstream API; the analysis counts every record, hands back the first
    five, and its scores follow from its averages and lie between 0 and
    100. *)
Theorem analysis_is_served (today : date) (upstream : Upstream)
    (suburb_name : string) (response : Response)
    (fields : list (string * json)) (p : json) (ps : list json) :
  suburb_name <> "" ->
  upstream suburb_name = Ok response ->
  status_code response < 400 \/ 600 <= status_code response ->
  body_json response = Some (JObj fields) ->
  lookup "results" fields = Some (JArr (p :: ps)) ->
  Forall (fun r => Typing.modest r = true) (p :: ps) ->
  exists a,
    analyze_suburb today upstream (Some suburb_name)
    = ({| reply_status := 200;
          reply_body := JObj [("suburb", JStr suburb_name);
                              ("analysis", analysis_to_json a)] |},
       [suburb_name])
    /\ total_listings (summary a) = Z.of_nat (List.length (p :: ps))
    /\ raw_properties a = firstn 5 (p :: ps)
    /\ value (liquidity_risk (scorecard a))
       = Spec.liquidity_risk (avg_days_on_market (summary a))
    /\ value (family_growth_potential (scorecard a))
       = Spec.growth_potential (num_to_Q (avg_bedrooms (summary a)))
    /\ 0 <= value (liquidity_risk (scorecard a)) <= 100
    /\ 0 <= value (family_growth_potential (scorecard a)) <= 100.
Proof.
  intros Hname Hup Hstatus Hbody Hres Hm.
  destruct (analyze_returns_modest today fields (p :: ps) Hres) as [a Ha];
    [discriminate | exact Hm |].
  exists a.
  destruct (analysis_facts _ _ _ _ Hres Ha)
    as (Htotal & _ & _ & _ & Hrisk & Hgrowth & Hraw).
  split.
  { rewrite (endpoint_after_fetch today upstream suburb_name response
               (JObj fields) Hname Hup Hstatus Hbody).
    rewrite Ha. reflexivity. }
  repeat (split; [assumption |]).
  rewrite Hrisk, Hgrowth. split; apply truncate_clamp_bounds.
Qed.

Lemma analysis_is_served_witness :
  exists a,
    analyze_suburb Samples.today
      (Samples.upstream_ok (Samples.payload Samples.two_listings))
      (Some "Kew")
    = ({| reply_status := 200;
          reply_body := JObj [("suburb", JStr "Kew");
                              ("analysis", analysis_to_json a)] |},
       ["Kew"])
    /\ total_listings (summary a) = 2
    /\ raw_properties a = Samples.two_listings.
Proof.
  destruct (analysis_is_served Samples.today
              (Samples.upstream_ok (Samples.payload Samples.two_listings)) "Kew"
              {| status_code := 200;
                 body_json := Some (Samples.payload Samples.two_listings) |}
              [("results", JArr Samples.two_listings)]
              (Samples.listing 500000 "2025-10-11" 3)
              [Samples.listing 600000 "2025-09-21" 5])
    as (a & Hreply & Htotal & Hraw & _).
  - discriminate.
  - reflexivity.
  - left. reflexivity.
  - reflexivity.
  - reflexivity.
  - repeat constructor.
  - exists a. split; [exact Hreply |]. split; [exact Htotal | exact Hraw].
Defined.

(** X10: one record that is not well-typed spoils the whole request: the
    analyzer raises whatever the other records hold, and the endpoint
    replies 500. *)
Theorem ill_typed_record_is_500 (today : date) (upstream : Upstream)
    (suburb_name : string) (response : Response)
    (fields : list (string * json)) (before after : list json) (r : json) :
  suburb_name <> "" ->
  upstream suburb_name = Ok response ->
  status_code response < 400 \/ 600 <= status_code response ->
  body_json response = Some (JObj fields) ->
  lookup "results" fields = Some (JArr (before ++ r :: after)) ->
  Typing.well_typed r = false ->
  (exists e, analyze_property_data today (JObj fields) = Raise e)
  /\ analyze_suburb today upstream (Some suburb_name)
     = (error_reply "An unexpected server error occurred during analysis." 500,
        [suburb_name]).
Proof.
  intros Hname Hup Hstatus Hbody Hres Hr.
  assert (Hraise : exists e, analyze_property_data today (JObj fields) = Raise e).
  { destruct (analyze_property_data today (JObj fields)) as [[a |] | e] eqn:Ha.
    - exfalso. pose proof (analyze_Some_well_typed _ _ _ _ Hres Ha) as Hwt.
      apply Forall_elt in Hwt. congruence.
    - exfalso. destruct before as [| b before'];
        eapply analyze_nonempty_not_None; try exact Ha; exact Hres.
    - exists e. reflexivity. }
  destruct Hraise as [e He].
  pose proof (analyze_only_lookup_errors today (JObj fields) e He) as Hkind.
  split; [exists e; exact He |].
  rewrite (endpoint_after_fetch today upstream suburb_name response
             (JObj fields) Hname Hup Hstatus Hbody).
  rewrite He. rewrite (handle_lookup_error _ _ Hkind). reflexivity.
Qed.

Lemma ill_typed_record_is_500_witness :
  (exists e,
     analyze_property_data Samples.today
       (Samples.payload [Samples.listing 500000 "2025-10-11" 3;
                         Samples.priced (JStr "N/A");
                         Samples.listing 600000 "2025-09-21" 5])
     = Raise e)
  /\ analyze_suburb Samples.today
       (Samples.upstream_ok
          (Samples.payload [Samples.listing 500000 "2025-10-11" 3;
                            Samples.priced (JStr "N/A");
                            Samples.listing 600000 "2025-09-21" 5]))
       (Some "Kew")
     = (error_reply "An unexpected server error occurred during analysis." 500,
        ["Kew"]).
Proof.
  apply (ill_typed_record_is_500 Samples.today
           (Samples.upstream_ok
              (Samples.payload [Samples.listing 500000 "2025-10-11" 3;
                                Samples.priced (JStr "N/A");
                                Samples.listing 600000 "2025-09-21" 5]))
           "Kew"
           {| status_code := 200;
              body_json :=
                Some (Samples.payload [Samples.listing 500000 "2025-10-11" 3;
                                       Samples.priced (JStr "N/A");
                                       Samples.listing 600000 "2025-09-21" 5]) |}
           [("results", JArr [Samples.listing 500000 "2025-10-11" 3;
                              Samples.priced (JStr "N/A");
                              Samples.listing 600000 "2025-09-21" 5])]
           [Samples.listing 500000 "2025-10-11" 3]
           [Samples.listing 600000 "2025-09-21" 5]
           (Samples.priced (JStr "N/A"))).
  - discriminate.
  - reflexivity.
  - left. reflexivity.
  - reflexivity.
  - reflexivity.
  - reflexivity.
Defined.

Lemma handle_exception_shape (suburb_name : string) (e : exn) :
  exists message status,
    handle_exception suburb_name e = error_reply message status
    /\ (In status [500; 503] \/ e = HTTPError status).
Proof.
  destruct e; cbn [handle_exception is_RequestException];
    try (do 2 eexists; split; [reflexivity | left; cbn [In]; tauto]).
  do 2 eexists. split; [reflexivity | right; reflexivity].
Qed.

(** X11: every reply of the endpoint is either the success object, under
    status 200, or an object with the single key [error] holding a
    message; the status of an error reply is 400, 404, 500 or 503, or the
    error status (400 to 599) the upstream API answered with, or the
    status carried by an [HTTPError] raised by the request itself. *)
Theorem reply_is_success_or_error (today : date) (upstream : Upstream)
    (suburb : option string) :
  (exists name a,
     suburb = Some name
     /\ fst (analyze_suburb today upstream suburb)
        = {| reply_status := 200;
             reply_body := JObj [("suburb", JStr name);
                                 ("analysis", analysis_to_json a)] |})
  \/ (exists message status,
        fst (analyze_suburb today upstream suburb)
        = error_reply message status
        /\ (In status [400; 404; 500; 503]
            \/ (exists name response,
                  suburb = Some name /\ upstream name = Ok response
                  /\ status = status_code response /\ 400 <= status < 600)
            \/ (exists name,
                  suburb = Some name
                  /\ upstream name = Raise (HTTPError status)))).
Proof.
  destruct suburb as [name |].
  2:{ right. do 2 eexists. split; [reflexivity | left; cbn [In]; tauto]. }
  unfold analyze_suburb. cbn [truthy].
  destruct (name =? "")%string; cbn [negb fst].
  { right. do 2 eexists. split; [reflexivity | left; cbn [In]; tauto]. }
  unfold fetch_and_analyze.
  destruct (upstream name) as [response | e] eqn:Hup; cbn [bind].
  2:{ right. destruct (handle_exception_shape name e)
        as (message & status & Heq & [Hin | ->]).
      - exists message, status. split; [exact Heq |]. left.
        cbn [In] in *. tauto.
      - exists message, status. split; [exact Heq |]. right. right.
        exists name. split; [reflexivity | exact Hup]. }
  unfold raise_for_status.
  destruct ((400 <=? status_code response) && (status_code response <? 600))
    eqn:Herr; cbn [bind].
  { right. apply andb_prop in Herr. destruct Herr as [Hlo Hhi].
    apply Z.leb_le in Hlo. apply Z.ltb_lt in Hhi.
    cbn [handle_exception]. do 2 eexists. split; [reflexivity |].
    right. left. exists name, response.
    split; [reflexivity |]. split; [exact Hup |]. split; [reflexivity | lia]. }
  unfold response_json. destruct (body_json response) as [data |]; cbn [bind].
  2:{ right. do 2 eexists. split; [reflexivity | left; cbn [In]; tauto]. }
  destruct (analyze_property_data today data) as [[a |] | e] eqn:Ha;
    cbn [bind].
  - left. exists name, a. split; reflexivity.
  - right. do 2 eexists. split; [reflexivity | left; cbn [In]; tauto].
  - right. rewrite (handle_lookup_error name e
                      (analyze_only_lookup_errors today data e Ha)).
    do 2 eexists. split; [reflexivity | left; cbn [In]; tauto].
Qed.

(** ** The analysis depends on three fields, and not on the order *)

Lemma collect_related {A : Type} (R : json -> json -> Prop)
    (body : json -> result (option A)) (items items' : list json)
    (xs : list A) :
  (forall p p' x, R p p' -> body p = Ok x -> body p' = Ok x) ->
  Forall2 R items items' ->
  collect body items = Ok xs ->
  collect body items' = Ok xs.
Proof.
  intros Hbody Hrel. revert xs.
  induction Hrel as [| p p' rest rest' Hp _ IH]; intros xs H; [exact H |].
  cbn [collect] in *. inv_bind H as x Hx. inv_bind H as ys Hys.
  rewrite (Hbody _ _ _ Hp Hx), (IH _ Hys). exact H.
Qed.

Lemma sale_price_of_same_fields (p p' : json) (x : option json) :
  Reads.same_fields p p' -> sale_price_of p = Ok x -> sale_price_of p' = Ok x.
Proof.
  intros ([kvs' ->] & Hprice & _) H.
  destruct (record_is_object _ _ _ _ _ H) as [kvs ->].
  rewrite sale_price_of_object in *. unfold Spec.present in *.
  rewrite <- Hprice. exact H.
Qed.

Lemma days_on_market_of_same_fields (today : date) (p p' : json)
    (x : option Z) :
  Reads.same_fields p p' ->
  days_on_market_of today p = Ok x -> days_on_market_of today p' = Ok x.
Proof.
  intros ([kvs' ->] & _ & Hdate & _) H.
  destruct (record_is_object _ _ _ _ _ H) as [kvs ->].
  rewrite days_on_market_of_object in *. unfold Spec.days_on_market_of in *.
  rewrite <- Hdate. exact H.
Qed.

Lemma bedrooms_of_same_fields (p p' : json) (x : option json) :
  Reads.same_fields p p' -> bedrooms_of p = Ok x -> bedrooms_of p' = Ok x.
Proof.
  intros ([kvs' ->] & _ & _ & Hattrs) H.
  destruct (record_is_object _ _ _ _ _ H) as [kvs ->].
  unfold bedrooms_of in *. cbn [py_get Spec.field] in *.
  rewrite <- Hattrs. exact H.
Qed.

(** X12: the summary and the scorecard depend on nothing but the [price],
    [listing_date] and [attributes] of each record: two [results] lists
    whose records agree on these three fields, one by one, get the same
    summary and the same scorecard. *)
Theorem analysis_reads_three_fields (today : date)
    (fields fields' : list (string * json)) (props props' : list json)
    (a : Analysis) :
  lookup "results" fields = Some (JArr props) ->
  lookup "results" fields' = Some (JArr props') ->
  Forall2 Reads.same_fields props props' ->
  analyze_property_data today (JObj fields) = Ok (Some a) ->
  exists a',
    analyze_property_data today (JObj fields') = Ok (Some a')
    /\ summary a' = summary a
    /\ scorecard a' = scorecard a.
Proof.
  intros Hres Hres' Hrel Ha.
  destruct (analyze_Some_inv _ _ _ _ Hres Ha) as [Hne Hparts].
  destruct Hparts as (sp & pm & dl & dm & beds & bm & g
                      & H1 & H2 & H3 & H4 & H5 & H6 & H7 & Heq).
  pose proof (collect_related _ _ _ _ _ sale_price_of_same_fields Hrel H1)
    as H1'.
  pose proof (collect_related _ _ _ _ _
                (days_on_market_of_same_fields today) Hrel H3) as H3'.
  pose proof (collect_related _ _ _ _ _ bedrooms_of_same_fields Hrel H5)
    as H5'.
  assert (Hne' : props' <> []).
  { intros ->. inversion Hrel. subst. congruence. }
  destruct (analyze_Some_intro today fields' props' _ _ _ _ _ _ _
              Hres' Hne' H1' H2 H3' H4 H5' H6 H7) as [a' Ha'].
  exists a'. split; [exact Ha' |].
  destruct (analyze_Some_inv _ _ _ _ Hres' Ha') as [_ Hparts'].
  destruct Hparts' as (sp' & pm' & dl' & dm' & beds' & bm' & g'
                       & K1 & K2 & K3 & K4 & K5 & K6 & K7 & Heq').
  assert (sp' = sp) by congruence. subst sp'.
  assert (dl' = dl) by congruence. subst dl'.
  assert (beds' = beds) by congruence. subst beds'.
  assert (pm' = pm) by congruence. assert (dm' = dm) by congruence.
  assert (bm' = bm) by congruence. subst pm' dm' bm'.
  assert (g' = g) by congruence. subst g'.
  subst a a'. cbn [summary scorecard].
  rewrite (Forall2_length Hrel). split; reflexivity.
Qed.

Lemma analysis_reads_three_fields_witness :
  exists a a',
    analyze_property_data Samples.today (Samples.payload Samples.two_listings)
    = Ok (Some a)
    /\ analyze_property_data Samples.today
         (JObj [("suburb", JStr "Kew");
                ("results",
                 JArr [Samples.full_listing "1 High St" 500000 "2025-10-11" 3;
                       Samples.full_listing "2 Low St" 600000 "2025-09-21" 5])])
       = Ok (Some a')
    /\ summary a' = summary a
    /\ scorecard a' = scorecard a.
Proof.
  pose (a0 := {| summary :=
                   {| total_listings := 2; avg_sale_price := 550000;
                      avg_days_on_market := 20; avg_bedrooms := PFloat 4 |};
                 scorecard :=
                   {| liquidity_risk :=
                        {| label := "Liquidity Risk Score"; value := 100;
                           explanation := risk_explanation |};
                      family_growth_potential :=
                        {| label := "Family Growth Potential"; value := 100;
                           explanation := growth_explanation |} |};
                 raw_properties := Samples.two_listings |}).
  exists a0.
  destruct (analysis_reads_three_fields Samples.today
              [("results", JArr Samples.two_listings)]
              [("suburb", JStr "Kew");
               ("results",
                JArr [Samples.full_listing "1 High St" 500000 "2025-10-11" 3;
                      Samples.full_listing "2 Low St" 600000 "2025-09-21" 5])]
              Samples.two_listings
              [Samples.full_listing "1 High St" 500000 "2025-10-11" 3;
               Samples.full_listing "2 Low St" 600000 "2025-09-21" 5]
              a0 eq_refl eq_refl)
    as (a' & Ha' & Hsum & Hcard).
  - repeat constructor; eexists; reflexivity.
  - vm_compute. reflexivity.
  - exists a'. split; [vm_compute; reflexivity |].
    split; [exact Ha' |]. split; assumption.
Defined.

Lemma filter_map_perm {A B : Type} (f : A -> option B) (l l' : list A) :
  Permutation l l' ->
  Permutation (Spec.filter_map f l) (Spec.filter_map f l').
Proof.
  induction 1 as [| x l l' _ IH | x y l | l l' l'' _ IH1 _ IH2];
    cbn [Spec.filter_map].
  - constructor.
  - destruct (f x); [constructor |]; exact IH.
  - destruct (f x), (f y); try apply Permutation_refl.
    apply perm_swap.
  - eapply Permutation_trans; eassumption.
Qed.

Lemma collect_perm {A : Type} (body : json -> result (option A))
    (items items' : list json) (xs : list A) :
  Permutation items items' ->
  collect body items = Ok xs ->
  exists xs', collect body items' = Ok xs' /\ Permutation xs xs'.
Proof.
  intros Hperm H. apply collect_Ok_inv in H. destruct H as [Hall ->].
  eexists. split.
  - apply (collect_Ok_intro body
             (fun p => match body p with Ok x => x | Raise _ => None end)).
    apply (Permutation_Forall Hperm) in Hall.
    eapply Forall_impl; [| exact Hall].
    intros p [x Hx]. cbv beta. rewrite Hx. reflexivity.
  - apply filter_map_perm. exact Hperm.
Qed.

Lemma Qsum_perm (qs qs' : list Q) :
  Permutation qs qs' -> (Spec.Qsum qs == Spec.Qsum qs')%Q.
Proof.
  induction 1 as [| x l l' _ IH | x y l | l l' l'' _ IH1 _ IH2];
    cbn [Spec.Qsum].
  - reflexivity.
  - rewrite IH. reflexivity.
  - ring.
  - rewrite IH1. exact IH2.
Qed.

Lemma values_perm (xs xs' : list json) (qs qs' : list Q) :
  Permutation xs xs' ->
  map Spec.number xs = map Some qs ->
  map Spec.number xs' = map Some qs' ->
  Permutation qs qs'.
Proof.
  intros Hperm Hqs Hqs'.
  apply (Permutation_map Spec.number) in Hperm.
  rewrite Hqs, Hqs' in Hperm.
  apply Permutation_sym, Permutation_map_inv in Hperm.
  destruct Hperm as (l3 & Heq & Hperm).
  apply map_Some_inj in Heq. subst l3. exact Hperm.
Qed.

(** The average of a list does not depend on the order of its elements. *)
Lemma mean_or_zero_perm (xs xs' : list json) (m : pynum) :
  Permutation xs xs' ->
  mean_or_zero xs = Ok m ->
  mean_or_zero xs' = Ok m.
Proof.
  intros Hperm H.
  destruct xs as [| v rest].
  { apply Permutation_nil in Hperm. subst xs'. exact H. }
  destruct xs' as [| v' rest'].
  { apply Permutation_sym, Permutation_nil in Hperm. discriminate Hperm. }
  unfold mean_or_zero in *. inv_bind H as s Hs.
  unfold py_sum in *.
  pose proof Hs as Hval. apply py_sum_from_value in Hval.
  destruct Hval as (qs & Hqs & Hsum).
  assert (Hnum : Forall (fun w => Typing.is_number w = true) (v' :: rest')).
  { apply (Permutation_Forall Hperm). eapply numbers_of_values. exact Hqs. }
  destruct (py_sum_from_total _ (PInt 0) Hnum) as [s' Hs'].
  rewrite Hs'. cbn [bind].
  pose proof Hs' as Hval'. apply py_sum_from_value in Hval'.
  destruct Hval' as (qs' & Hqs' & Hsum').
  pose proof (Qsum_perm _ _ (values_perm _ _ _ _ Hperm Hqs Hqs')) as Hq.
  rewrite <- (Permutation_length Hperm).
  change (List.length (v :: rest)) with (S (List.length rest)) in *.
  unfold py_truediv in *. rewrite count_nonzero in *.
  rewrite <- H. do 2 f_equal. apply Qred_complete.
  rewrite Hsum, Hsum', Hq. reflexivity.
Qed.

(** X13: for records whose prices and bedroom counts are integers, the
    summary and the scorecard do not depend on the order of the records: a
    permutation of the [results] list gets the same summary and the same
    scorecard. *)
Theorem analysis_ignores_order (today : date)
    (fields fields' : list (string * json)) (props props' : list json)
    (a : Analysis) :
  lookup "results" fields = Some (JArr props) ->
  lookup "results" fields' = Some (JArr props') ->
  Forall (fun r => Typing.integral r = true) props ->
  Permutation props props' ->
  analyze_property_data today (JObj fields) = Ok (Some a) ->
  exists a',
    analyze_property_data today (JObj fields') = Ok (Some a')
    /\ summary a' = summary a
    /\ scorecard a' = scorecard a.
Proof.
  intros Hres Hres' _ Hperm Ha.
  destruct (analyze_Some_inv _ _ _ _ Hres Ha) as [Hne Hparts].
  destruct Hparts as (sp & pm & dl & dm & beds & bm & g
                      & H1 & H2 & H3 & H4 & H5 & H6 & H7 & Heq).
  destruct (collect_perm _ _ _ _ Hperm H1) as (sp' & H1' & Psp).
  destruct (collect_perm _ _ _ _ Hperm H3) as (dl' & H3' & Pdl).
  destruct (collect_perm _ _ _ _ Hperm H5) as (beds' & H5' & Pbeds).
  pose proof (mean_or_zero_perm _ _ _ Psp H2) as H2'.
  pose proof (mean_or_zero_perm _ _ _ (Permutation_map JInt Pdl) H4) as H4'.
  pose proof (mean_or_zero_perm _ _ _ Pbeds H6) as H6'.
  assert (Hne' : props' <> []).
  { intros ->. apply Permutation_sym, Permutation_nil in Hperm. congruence. }
  destruct (analyze_Some_intro today fields' props' _ _ _ _ _ _ _
              Hres' Hne' H1' H2' H3' H4' H5' H6' H7) as [a' Ha'].
  exists a'. split; [exact Ha' |].
  destruct (analyze_Some_inv _ _ _ _ Hres' Ha') as [_ Hparts'].
  destruct Hparts' as (sp'' & pm' & dl'' & dm' & beds'' & bm' & g'
                       & K1 & K2 & K3 & K4 & K5 & K6 & K7 & Heq').
  assert (sp'' = sp') by congruence. subst sp''.
  assert (dl'' = dl') by congruence. subst dl''.
  assert (beds'' = beds') by congruence. subst beds''.
  assert (pm' = pm) by congruence. assert (dm' = dm) by congruence.
  assert (bm' = bm) by congruence. subst pm' dm' bm'.
  assert (g' = g) by congruence. subst g'.
  subst a a'. cbn [summary scorecard].
  rewrite (Permutation_length Hperm). split; reflexivity.
Qed.

Lemma analysis_ignores_order_witness :
  exists a a',
    analyze_property_data Samples.today (Samples.payload Samples.two_listings)
    = Ok (Some a)
    /\ analyze_property_data Samples.today
         (Samples.payload (rev Samples.two_listings))
       = Ok (Some a')
    /\ summary a' = summary a
    /\ scorecard a' = scorecard a.
Proof.
  pose (a0 := {| summary :=
                   {| total_listings := 2; avg_sale_price := 550000;
                      avg_days_on_market := 20; avg_bedrooms := PFloat 4 |};
                 scorecard :=
                   {| liquidity_risk :=
                        {| label := "Liquidity Risk Score"; value := 100;
                           explanation := risk_explanation |};
                      family_growth_potential :=
                        {| label := "Family Growth Potential"; value := 100;
                           explanation := growth_explanation |} |};
                 raw_properties := Samples.two_listings |}).
  exists a0.
  destruct (analysis_ignores_order Samples.today
              [("results", JArr Samples.two_listings)]
              [("results", JArr (rev Samples.two_listings))]
              Samples.two_listings (rev Samples.two_listings)
              a0 eq_refl eq_refl)
    as (a' & Ha' & Hsum & Hcard).
  - repeat constructor.
  - apply Permutation_rev.
  - vm_compute. reflexivity.
  - exists a'. split; [vm_compute; reflexivity |].
    split; [exact Ha' |]. split; assumption.
Defined.

(** ** The scores as functions of the averages *)

Lemma truncate_clamp_floor (x : Q) :
  Spec.truncate (Spec.clamp x 0 100) = Z.max 0 (Z.min 100 (Qfloor x)).
Proof.
  rewrite <- Qtrunc_truncate. unfold Qtrunc.
  rewrite (proj2 (Qle_bool_iff _ _) (proj1 (clamp_bounds x))).
  unfold Spec.clamp.
  destruct (Qlt_le_dec 0 x) as [Hpos | Hneg].
  - destruct (Qlt_le_dec x 100) as [Hlt | Hge].
    + assert (Hc : (Qmax 0 (Qmin 100 x) == x)%Q).
      { rewrite (Q.min_r 100 x) by (apply Qlt_le_weak; exact Hlt).
        apply Q.max_r. apply Qlt_le_weak. exact Hpos. }
      rewrite (Qfloor_comp _ _ Hc).
      pose proof (Qfloor_resp_le _ _ (Qlt_le_weak _ _ Hpos)) as H0.
      change (Qfloor 0) with 0 in H0.
      assert (H100 : Qfloor x < 100).
      { rewrite Zlt_Qlt. eapply Qle_lt_trans; [apply Qfloor_le | exact Hlt]. }
      lia.
    + assert (Hc : (Qmax 0 (Qmin 100 x) == 100)%Q).
      { rewrite (Q.min_l 100 x) by exact Hge. apply Q.max_r. discriminate. }
      rewrite (Qfloor_comp _ _ Hc).
      pose proof (Qfloor_resp_le _ _ Hge) as H100.
      change (Qfloor 100) with 100 in *. lia.
  - assert (Hc : (Qmax 0 (Qmin 100 x) == 0)%Q).
    { apply Q.max_l. eapply Qle_trans; [apply Q.le_min_r | exact Hneg]. }
    rewrite (Qfloor_comp _ _ Hc).
    pose proof (Qfloor_resp_le _ _ Hneg) as H0.
    change (Qfloor 0) with 0 in *. lia.
Qed.

Lemma liquidity_risk_closed_form (avg_dom : Z) :
  Spec.liquidity_risk avg_dom = Z.max 0 (Z.min 100 ((260 - 3 * avg_dom) / 2)).
Proof.
  unfold Spec.liquidity_risk. rewrite truncate_clamp_floor.
  assert (H : (100 - (inject_Z avg_dom - 20) * (3 # 2)
               == inject_Z (260 - 3 * avg_dom) / inject_Z 2)%Q).
  { unfold Z.sub. rewrite inject_Z_plus, inject_Z_opp, inject_Z_mult.
    change (inject_Z 260) with 260%Q. change (inject_Z 3) with 3%Q.
    change (inject_Z 2) with 2%Q. field. }
  rewrite (Qfloor_comp _ _ H), <- Zdiv_Qdiv. reflexivity.
Qed.

Lemma growth_potential_closed_form (avg_bedrooms : Q) :
  Spec.growth_potential avg_bedrooms
  = Z.max 0 (Z.min 100 (Qfloor (avg_bedrooms * 25))).
Proof.
  unfold Spec.growth_potential. rewrite truncate_clamp_floor.
  assert (H : (avg_bedrooms / 4 * 100 == avg_bedrooms * 25)%Q) by field.
  rewrite (Qfloor_comp _ _ H). reflexivity.
Qed.

(** X14: the liquidity risk score is
    [max(0, min(100, floor((260 - 3 * avg_dom) / 2)))] of the reported
    average days-on-market: it is 100 exactly when that average is at most
    20 days and 0 exactly when it is 87 days or more. *)
Theorem liquidity_risk_thresholds (today : date)
    (fields : list (string * json)) (props : list json) (a : Analysis) :
  lookup "results" fields = Some (JArr props) ->
  analyze_property_data today (JObj fields) = Ok (Some a) ->
  value (liquidity_risk (scorecard a))
  = Z.max 0 (Z.min 100 ((260 - 3 * avg_days_on_market (summary a)) / 2))
  /\ (value (liquidity_risk (scorecard a)) = 100
      <-> avg_days_on_market (summary a) <= 20)
  /\ (value (liquidity_risk (scorecard a)) = 0
      <-> 87 <= avg_days_on_market (summary a)).
Proof.
  intros Hres Ha.
  destruct (analysis_facts _ _ _ _ Hres Ha) as (_ & _ & _ & _ & Hrisk & _).
  rewrite Hrisk, liquidity_risk_closed_form.
  repeat split; intros H; Z.div_mod_to_equations; lia.
Qed.

Lemma liquidity_risk_thresholds_witness :
  exists a,
    analyze_property_data Samples.today
      (Samples.payload [Samples.listing 400000 "2025-08-22" 2;
                        Samples.listing 450000 "2025-08-22" 3])
    = Ok (Some a)
    /\ avg_days_on_market (summary a) = 60
    /\ value (liquidity_risk (scorecard a))
       = Z.max 0 (Z.min 100 ((260 - 3 * avg_days_on_market (summary a)) / 2)).
Proof.
  eexists. split; [vm_compute; reflexivity |]. split; [reflexivity |].
  refine (proj1 (liquidity_risk_thresholds Samples.today
                   [("results", JArr [Samples.listing 400000 "2025-08-22" 2;
                                      Samples.listing 450000 "2025-08-22" 3])]
                   _ _ eq_refl _)).
  vm_compute. reflexivity.
Defined.

(** ** Averages lie between the smallest and the largest value *)

Lemma Qsum_lower (lo : Q) (qs : list Q) :
  Forall (fun q => (lo <= q)%Q) qs ->
  (inject_Z (Z.of_nat (List.length qs)) * lo <= Spec.Qsum qs)%Q.
Proof.
  induction 1 as [| q rest Hq _ IH].
  - cbn [List.length Spec.Qsum Z.of_nat]. change (inject_Z 0) with 0%Q. lra.
  - cbn [List.length Spec.Qsum]. rewrite Nat2Z.inj_succ.
    unfold Z.succ. rewrite inject_Z_plus. change (inject_Z 1) with 1%Q.
    set (n := inject_Z (Z.of_nat (List.length rest))) in *.
    assert (H : ((n + 1) * lo == n * lo + lo)%Q) by ring.
    rewrite H. lra.
Qed.

Lemma Qsum_upper (hi : Q) (qs : list Q) :
  Forall (fun q => (q <= hi)%Q) qs ->
  (Spec.Qsum qs <= inject_Z (Z.of_nat (List.length qs)) * hi)%Q.
Proof.
  induction 1 as [| q rest Hq _ IH].
  - cbn [List.length Spec.Qsum Z.of_nat]. change (inject_Z 0) with 0%Q. lra.
  - cbn [List.length Spec.Qsum]. rewrite Nat2Z.inj_succ.
    unfold Z.succ. rewrite inject_Z_plus. change (inject_Z 1) with 1%Q.
    set (n := inject_Z (Z.of_nat (List.length rest))) in *.
    assert (H : ((n + 1) * hi == n * hi + hi)%Q) by ring.
    rewrite H. lra.
Qed.

Lemma count_positive {A : Type} (x : A) (rest : list A) :
  (0 < inject_Z (Z.of_nat (List.length (x :: rest))))%Q.
Proof.
  change 0%Q with (inject_Z 0). rewrite <- Zlt_Qlt.
  cbn [List.length]. lia.
Qed.

Lemma mean_lower (lo : Q) (q : Q) (rest : list Q) :
  Forall (fun x => (lo <= x)%Q) (q :: rest) ->
  (lo <= Spec.mean (q :: rest))%Q.
Proof.
  intros H. unfold Spec.mean.
  apply Qle_shift_div_l; [apply count_positive |].
  rewrite Qmult_comm. apply Qsum_lower. exact H.
Qed.

Lemma mean_upper (hi : Q) (q : Q) (rest : list Q) :
  Forall (fun x => (x <= hi)%Q) (q :: rest) ->
  (Spec.mean (q :: rest) <= hi)%Q.
Proof.
  intros H. unfold Spec.mean.
  apply Qle_shift_div_r; [apply count_positive |].
  rewrite Qmult_comm. apply Qsum_upper. exact H.
Qed.

Lemma rounds_to_lower (x : Q) (n lo : Z) :
  Spec.rounds_to x n -> (inject_Z lo <= x)%Q -> lo <= n.
Proof.
  unfold Spec.rounds_to. intros Hr Hlo. apply Qabs_Qle_condition in Hr.
  assert (H : (inject_Z (lo - 1) < inject_Z n)%Q).
  { unfold Z.sub. rewrite inject_Z_plus, inject_Z_opp.
    change (inject_Z 1) with 1%Q. lra. }
  rewrite <- Zlt_Qlt in H. lia.
Qed.

Lemma rounds_to_upper (x : Q) (n hi : Z) :
  Spec.rounds_to x n -> (x <= inject_Z hi)%Q -> n <= hi.
Proof.
  unfold Spec.rounds_to. intros Hr Hhi. apply Qabs_Qle_condition in Hr.
  assert (H : (inject_Z n < inject_Z (hi + 1))%Q).
  { rewrite inject_Z_plus. change (inject_Z 1) with 1%Q. lra. }
  rewrite <- Zlt_Qlt in H. lia.
Qed.

Lemma rounds_to_tenth_lower (x y : Q) (lo : Z) :
  Spec.rounds_to_tenth x y -> (inject_Z lo <= x)%Q -> (inject_Z lo <= y)%Q.
Proof.
  intros [[k Hk] Hr] Hlo. apply Qabs_Qle_condition in Hr.
  assert (Hk' : (y == inject_Z k * (1 # 10))%Q) by (rewrite Hk; field).
  assert (H : (inject_Z (10 * lo - 1) < inject_Z k)%Q).
  { unfold Z.sub. rewrite inject_Z_plus, inject_Z_opp, inject_Z_mult.
    change (inject_Z 1) with 1%Q. change (inject_Z 10) with 10%Q. lra. }
  rewrite <- Zlt_Qlt in H.
  assert (H' : (inject_Z (10 * lo) <= inject_Z k)%Q)
    by (rewrite <- Zle_Qle; lia).
  rewrite inject_Z_mult in H'. change (inject_Z 10) with 10%Q in H'. lra.
Qed.

Lemma rounds_to_tenth_upper (x y : Q) (hi : Z) :
  Spec.rounds_to_tenth x y -> (x <= inject_Z hi)%Q -> (y <= inject_Z hi)%Q.
Proof.
  intros [[k Hk] Hr] Hhi. apply Qabs_Qle_condition in Hr.
  assert (Hk' : (y == inject_Z k * (1 # 10))%Q) by (rewrite Hk; field).
  assert (H : (inject_Z k < inject_Z (10 * hi + 1))%Q).
  { rewrite inject_Z_plus, inject_Z_mult.
    change (inject_Z 1) with 1%Q. change (inject_Z 10) with 10%Q. lra. }
  rewrite <- Zlt_Qlt in H.
  assert (H' : (inject_Z k <= inject_Z (10 * hi))%Q)
    by (rewrite <- Zle_Qle; lia).
  rewrite inject_Z_mult in H'. change (inject_Z 10) with 10%Q in H'. lra.
Qed.

Lemma prices_in_range (xs : list json) (qs : list Q) (lo hi : Z) :
  map Spec.number xs = map Some qs ->
  Forall (fun v => exists q, Spec.number v = Some q
                             /\ (inject_Z lo <= q <= inject_Z hi)%Q) xs ->
  Forall (fun q => (inject_Z lo <= q)%Q) qs
  /\ Forall (fun q => (q <= inject_Z hi)%Q) qs.
Proof.
  revert qs. induction xs as [| v rest IH]; intros [| q qs] Hqs Hall;
    try discriminate Hqs; [split; constructor |].
  cbn [map] in Hqs. injection Hqs as Hv Hrest.
  inversion Hall as [| ? ? (q' & Hq' & Hlo & Hhi) Hall']; subst.
  assert (q' = q) by congruence. subst q'.
  destruct (IH qs Hrest Hall') as [IHlo IHhi].
  split; constructor; assumption.
Qed.

(** X15: the reported average price lies within the range of the prices:
    when every price that is present and not null is an integer of at
    most 2^53 in magnitude between [lo] and [hi], and there is at least
    one, the average is between [lo] and [hi] too. *)
Theorem average_price_within_range (today : date)
    (fields : list (string * json)) (props : list json) (a : Analysis)
    (lo hi : Z) :
  lookup "results" fields = Some (JArr props) ->
  analyze_property_data today (JObj fields) = Ok (Some a) ->
  Spec.prices props <> [] ->
  Forall (fun v => Typing.is_modest_integer v = true
                   /\ exists q, Spec.number v = Some q
                                /\ (inject_Z lo <= q <= inject_Z hi)%Q)
    (Spec.prices props) ->
  lo <= avg_sale_price (summary a) <= hi.
Proof.
  intros Hres Ha Hne Hmodest.
  assert (Hall : Forall (fun v => exists q,
                           Spec.number v = Some q
                           /\ (inject_Z lo <= q <= inject_Z hi)%Q)
                   (Spec.prices props)).
  { eapply Forall_impl; [| exact Hmodest]. intros v [_ Hv]. exact Hv. }
  destruct (analysis_facts _ _ _ _ Hres Ha) as (_ & (qs & Hqs & Havg) & _).
  destruct (prices_in_range _ _ _ _ Hqs Hall) as [Hlo Hhi].
  destruct qs as [| q rest].
  { destruct (Spec.prices props); [congruence | discriminate Hqs]. }
  cbn [Spec.rounded_average] in Havg. split.
  - eapply rounds_to_lower; [exact Havg | apply mean_lower; exact Hlo].
  - eapply rounds_to_upper; [exact Havg | apply mean_upper; exact Hhi].
Qed.

Lemma average_price_within_range_witness :
  exists a,
    analyze_property_data Samples.today (Samples.payload Samples.two_listings)
    = Ok (Some a)
    /\ 500000 <= avg_sale_price (summary a) <= 600000.
Proof.
  eexists. split; [vm_compute; reflexivity |].
  apply (average_price_within_range Samples.today
           [("results", JArr Samples.two_listings)] Samples.two_listings
           _ 500000 600000 eq_refl).
  - vm_compute. reflexivity.
  - discriminate.
  - repeat constructor; eexists; (split; [reflexivity |]);
      split; discriminate.
Defined.

Lemma days_in_range (ds : list Z) (P : Z -> Prop) (Q' : Q -> Prop) :
  (forall d, P d -> Q' (inject_Z d)) ->
  Forall P ds -> Forall Q' (map inject_Z ds).
Proof.
  intros HPQ H. induction H; constructor; auto.
Qed.

(** X16: the reported average days-on-market lies between the shortest
    and the longest time on the market.  So when no listing whose date
    parses has been listed for more than 20 days (a date in the future
    counts as negative) the liquidity risk score is 100, and when there is
    such a listing and each has been listed for 87 days or more the score
    is 0. *)
Theorem days_on_market_within_range (today : date)
    (fields : list (string * json)) (props : list json) (a : Analysis) :
  lookup "results" fields = Some (JArr props) ->
  analyze_property_data today (JObj fields) = Ok (Some a) ->
  (forall lo hi,
     Spec.days_on_market today props <> [] ->
     Forall (fun d => lo <= d <= hi) (Spec.days_on_market today props) ->
     lo <= avg_days_on_market (summary a) <= hi)
  /\ (Forall (fun d => d <= 20) (Spec.days_on_market today props) ->
      value (liquidity_risk (scorecard a)) = 100)
  /\ (Spec.days_on_market today props <> [] ->
      Forall (fun d => 87 <= d) (Spec.days_on_market today props) ->
      value (liquidity_risk (scorecard a)) = 0).
Proof.
  intros Hres Ha.
  destruct (analysis_facts _ _ _ _ Hres Ha)
    as (_ & _ & Hdom & _ & Hrisk & _).
  rewrite Hrisk, liquidity_risk_closed_form.
  set (avg := avg_days_on_market (summary a)) in *.
  assert (Hupper : forall hi,
             Spec.days_on_market today props <> [] ->
             Forall (fun d => d <= hi) (Spec.days_on_market today props) ->
             avg <= hi).
  { intros hi Hne Hall.
    destruct (Spec.days_on_market today props) as [| d ds]; [congruence |].
    cbn [map Spec.rounded_average] in Hdom.
    eapply rounds_to_upper; [exact Hdom |].
    apply mean_upper.
    apply (days_in_range (d :: ds) (fun d => d <= hi)
             (fun q => (q <= inject_Z hi)%Q)); [| exact Hall].
    intros d' Hd'. rewrite <- Zle_Qle. exact Hd'. }
  assert (Hlower : forall lo,
             Spec.days_on_market today props <> [] ->
             Forall (fun d => lo <= d) (Spec.days_on_market today props) ->
             lo <= avg).
  { intros lo Hne Hall.
    destruct (Spec.days_on_market today props) as [| d ds]; [congruence |].
    cbn [map Spec.rounded_average] in Hdom.
    eapply rounds_to_lower; [exact Hdom |].
    apply mean_lower.
    apply (days_in_range (d :: ds) (fun d => lo <= d)
             (fun q => (inject_Z lo <= q)%Q)); [| exact Hall].
    intros d' Hd'. rewrite <- Zle_Qle. exact Hd'. }
  split; [| split].
  - intros lo hi Hne Hall. split.
    + apply Hlower; [exact Hne |].
      eapply Forall_impl; [| exact Hall]. intros d Hd. apply Hd.
    + apply Hupper; [exact Hne |].
      eapply Forall_impl; [| exact Hall]. intros d Hd. apply Hd.
  - intros Hall.
    assert (Havg : avg <= 20).
    { destruct (Spec.days_on_market today props) as [| d ds] eqn:Hds.
      - cbn [map Spec.rounded_average] in Hdom. lia.
      - apply Hupper; [discriminate | exact Hall]. }
    Z.div_mod_to_equations. lia.
  - intros Hne Hall. pose proof (Hlower 87 Hne Hall) as Havg.
    Z.div_mod_to_equations. lia.
Qed.

Lemma days_on_market_within_range_witness :
  exists a,
    analyze_property_data Samples.today (Samples.payload Samples.two_listings)
    = Ok (Some a)
    /\ 10 <= avg_days_on_market (summary a) <= 30.
Proof.
  eexists. split; [vm_compute; reflexivity |].
  refine (proj1 (days_on_market_within_range Samples.today
                   [("results", JArr Samples.two_listings)]
                   Samples.two_listings _ eq_refl _) 10 30 _ _).
  - vm_compute. reflexivity.
  - discriminate.
  - repeat constructor; discriminate.
Defined.

Lemma bedrooms_positive (props : list json) :
  Forall (fun q => (0 < q)%Q) (Spec.bedrooms props).
Proof.
  unfold Spec.bedrooms.
  induction props as [| p rest IH]; cbn [Spec.filter_map]; [constructor |].
  destruct (Spec.bedrooms_of p) as [q |] eqn:Hq; [| exact IH].
  constructor; [| exact IH].
  unfold Spec.bedrooms_of in Hq.
  destruct (Spec.field p "attributes") as [attrs |]; [| discriminate Hq].
  destruct (Spec.field attrs "bedrooms") as [v |]; [| discriminate Hq].
  destruct (Spec.number v) as [q' |]; [| discriminate Hq].
  destruct (Qlt_le_dec 0 q') as [Hpos |]; [| discriminate Hq].
  injection Hq as <-. exact Hpos.
Qed.

(** X17: the reported average bedroom count is never negative; the growth
    potential score is 100 exactly when that average is 4 or more, and 0
    exactly when it is 0.  For modest records with a count to average,
    the reported average lies between any two integers that bound the
    counts averaged, so when every such count is 4 or more the score is
    100. *)
Theorem growth_potential_thresholds (today : date)
    (fields : list (string * json)) (props : list json) (a : Analysis) :
  lookup "results" fields = Some (JArr props) ->
  analyze_property_data today (JObj fields) = Ok (Some a) ->
  (0 <= num_to_Q (avg_bedrooms (summary a)))%Q
  /\ (value (family_growth_potential (scorecard a)) = 100
      <-> (4 <= num_to_Q (avg_bedrooms (summary a)))%Q)
  /\ (value (family_growth_potential (scorecard a)) = 0
      <-> (num_to_Q (avg_bedrooms (summary a)) == 0)%Q)
  /\ (Forall (fun r => Typing.modest r = true) props ->
      Spec.bedrooms props <> [] ->
      (forall lo hi : Z,
         Forall (fun q => (inject_Z lo <= q <= inject_Z hi)%Q)
           (Spec.bedrooms props) ->
         (inject_Z lo <= num_to_Q (avg_bedrooms (summary a))
          <= inject_Z hi)%Q)
      /\ (Forall (fun q => (4 <= q)%Q) (Spec.bedrooms props) ->
          value (family_growth_potential (scorecard a)) = 100)).
Proof.
  intros Hres Ha.
  destruct (analysis_facts _ _ _ _ Hres Ha)
    as (_ & _ & _ & Hbeds & _ & Hgrowth & _).
  rewrite Hgrowth, growth_potential_closed_form.
  set (avg := num_to_Q (avg_bedrooms (summary a))) in *.
  pose proof (bedrooms_positive props) as Hpos.
  assert (Hlower : forall lo : Z,
             Spec.bedrooms props <> [] ->
             Forall (fun q => (inject_Z lo <= q)%Q) (Spec.bedrooms props) ->
             (inject_Z lo <= avg)%Q).
  { intros lo Hne Hall.
    destruct (Spec.bedrooms props) as [| q qs]; [congruence |].
    cbn [Spec.rounded_average_tenth] in Hbeds.
    eapply rounds_to_tenth_lower; [exact Hbeds | apply mean_lower; exact Hall]. }
  assert (Hupper : forall hi : Z,
             Spec.bedrooms props <> [] ->
             Forall (fun q => (q <= inject_Z hi)%Q) (Spec.bedrooms props) ->
             (avg <= inject_Z hi)%Q).
  { intros hi Hne Hall.
    destruct (Spec.bedrooms props) as [| q qs]; [congruence |].
    cbn [Spec.rounded_average_tenth] in Hbeds.
    eapply rounds_to_tenth_upper; [exact Hbeds | apply mean_upper; exact Hall]. }
  assert (Hnonneg : (0 <= avg)%Q).
  { destruct (Spec.bedrooms props) as [| q qs] eqn:Hb.
    - cbn [Spec.rounded_average_tenth] in Hbeds. rewrite Hbeds. apply Qle_refl.
    - apply (Hlower 0); [discriminate |].
      eapply Forall_impl; [| exact Hpos].
      intros x Hx. apply Qlt_le_weak. exact Hx. }
  assert (Htenth : exists k : Z, (avg == inject_Z k / 10)%Q).
  { destruct (Spec.bedrooms props) as [| q qs].
    - cbn [Spec.rounded_average_tenth] in Hbeds. exists 0.
      rewrite Hbeds. reflexivity.
    - destruct Hbeds as [Hk _]. exact Hk. }
  assert (Hfull : Z.max 0 (Z.min 100 (Qfloor (avg * 25))) = 100
                  <-> (4 <= avg)%Q).
  { split.
    - intros H.
      assert (H100 : 100 <= Qfloor (avg * 25)) by lia.
      rewrite Zle_Qle in H100. pose proof (Qfloor_le (avg * 25)) as Hf.
      change (inject_Z 100) with 100%Q in H100. lra.
    - intros H.
      assert (H100 : (100 <= avg * 25)%Q) by lra.
      apply Qfloor_resp_le in H100. change (Qfloor 100) with 100 in H100.
      lia. }
  split; [exact Hnonneg |]. split; [exact Hfull |]. split;
    [| intros _ Hne; split].
  - split.
    + intros H.
      assert (H0 : Qfloor (avg * 25) <= 0) by lia.
      pose proof (Qlt_floor (avg * 25)) as Hf.
      rewrite inject_Z_plus in Hf. change (inject_Z 1) with 1%Q in Hf.
      rewrite Zle_Qle in H0. change (inject_Z 0) with 0%Q in H0.
      destruct Htenth as [k Hk].
      assert (Hk' : (avg == inject_Z k * (1 # 10))%Q) by (rewrite Hk; field).
      assert (Hk1 : (inject_Z k < inject_Z 1)%Q)
        by (change (inject_Z 1) with 1%Q; lra).
      assert (Hk0 : (inject_Z (-1) < inject_Z k)%Q)
        by (change (inject_Z (-1)) with (-1)%Q; lra).
      rewrite <- Zlt_Qlt in Hk1, Hk0.
      assert (k = 0) by lia. subst k. rewrite Hk. reflexivity.
    + intros H.
      assert (Hz : (avg * 25 == 0)%Q) by (rewrite H; reflexivity).
      rewrite (Qfloor_comp _ _ Hz). reflexivity.
  - intros lo hi Hall. split.
    + apply Hlower; [exact Hne |].
      eapply Forall_impl; [| exact Hall]. intros x Hx. apply Hx.
    + apply Hupper; [exact Hne |].
      eapply Forall_impl; [| exact Hall]. intros x Hx. apply Hx.
  - intros Hall. apply Hfull. apply (Hlower 4); assumption.
Qed.

Lemma growth_potential_thresholds_witness :
  exists a,
    analyze_property_data Samples.today
      (Samples.payload [Samples.listing 400000 "2025-08-22" 2;
                        Samples.listing 450000 "2025-08-22" 3])
    = Ok (Some a)
    /\ (inject_Z 2 <= num_to_Q (avg_bedrooms (summary a)) <= inject_Z 3)%Q.
Proof.
  eexists. split; [vm_compute; reflexivity |].
  refine (proj1 (proj2 (proj2 (proj2
            (growth_potential_thresholds Samples.today
               [("results", JArr [Samples.listing 400000 "2025-08-22" 2;
                                  Samples.listing 450000 "2025-08-22" 3])]
               _ _ eq_refl _))) _ _) 2 3 _).
  - vm_compute. reflexivity.
  - repeat constructor.
  - discriminate.
  - repeat constructor; discriminate.
Defined.
